(** * Emby client (custom_components/emby_upcoming_media/client.py)

    A shallow embedding of the [EmbyClient] class: the metadata calls
    ([get_view_categories], [get_data]), the artwork cache
    ([get_image_url], [download_image_sync], [cleanup_old_images]) and the
    library functions they rely on (string search and split,
    [os.path.join], MD5).

    Conventions of the model:
    - Python [str] values are [string]s; a [string] holds the UTF-8 bytes of
      the text, so [str.encode()] is the identity on the representation
      (text that has no UTF-8 encoding, a lone surrogate, is not
      represented).
    - The file system is a finite map from path strings, as the program
      spells them, to nodes.
    - Time stamps ([time.time()], [os.path.getmtime]) are rationals; the
      rounding of floating-point subtraction is outside the model.
    - Every call of the operating system or of a library with an effect
      appends an event to a trace, so that "does not touch the file system"
      or "does not retry" are statements about the trace.
    - A method is a function from the state (client object and world) to an
      outcome (returned value or raised exception) and a new state. *)

From Stdlib Require Import ZArith QArith Ascii String DecimalString List Lia.
From stdpp Require Import gmap strings list fin_maps.

Local Open Scope string_scope.
Local Open Scope Z_scope.

(* ===================================================================== *)
(** ** Strings as Python uses them *)
(* ===================================================================== *)

Module PyStr.

(** [s.startswith(p)] *)
Fixpoint startswith (p s : string) : bool :=
  match p, s with
  | EmptyString, _ => true
  | String a p', String b s' => if Ascii.eqb a b then startswith p' s' else false
  | String _ _, EmptyString => false
  end.

(** [sub in s] *)
Fixpoint contains (sub s : string) : bool :=
  match s with
  | EmptyString => startswith sub EmptyString
  | String _ s' => startswith sub s || contains sub s'
  end.

(** [s.endswith(suf)] *)
Fixpoint endswith (suf s : string) : bool :=
  String.eqb suf s ||
  match s with
  | EmptyString => false
  | String _ s' => endswith suf s'
  end.

(** [s.split(sep)] for a non-empty [sep]: the pieces between the
    occurrences of [sep], found from left to right without overlap.
    [skip] counts the characters of a matched separator still to be
    passed over, [cur] is the piece being collected. *)
Fixpoint split_from (sep : string) (skip : nat) (cur s : string) : list string :=
  match s with
  | EmptyString => [cur]
  | String c s' =>
      match skip with
      | S k => split_from sep k cur s'
      | O =>
          if startswith sep s
          then cur :: split_from sep (Nat.pred (String.length sep)) EmptyString s'
          else split_from sep O (cur ++ String c EmptyString) s'
      end
  end.

Definition split (sep s : string) : list string :=
  split_from sep O EmptyString s.

(** [l[-1]] on a list of strings; [None] stands for IndexError. *)
Definition last_item (l : list string) : option string := List.last (List.map Some l) None.

(** [str(n)] for an integer *)
Definition of_Z (n : Z) : string :=
  match n with
  | Z0 => "0"
  | Zpos _ => DecimalString.NilZero.string_of_uint (Pos.to_uint (Z.to_pos n))
  | Zneg p => "-" ++ DecimalString.NilZero.string_of_uint (Pos.to_uint p)
  end.

(** [s[:n]] on any sequence, with Python's rule for a negative bound. *)
Definition slice_to {A} (n : Z) (l : list A) : list A :=
  if 0 <=? n then firstn (Z.to_nat n) l
  else firstn (Z.to_nat (Z.of_nat (List.length l) + n)) l.

(** The first [n] characters of a string, [s[:n]] for [n >= 0]. *)
Definition first_chars (n : nat) (s : string) : string := String.substring 0 n s.

End PyStr.

(* ===================================================================== *)
(** ** [os.path.join] (posixpath, two arguments) *)
(* ===================================================================== *)

Module OsPath.

Definition join (a b : string) : string :=
  if PyStr.startswith "/" b then b
  else if String.eqb a "" || PyStr.endswith "/" a then a ++ b
  else a ++ "/" ++ b.

End OsPath.

(* ===================================================================== *)
(** ** [hashlib.md5(...).hexdigest()] (RFC 1321) *)
(* ===================================================================== *)

Module MD5.

Definition w32 (x : Z) : Z := x mod 2 ^ 32.

Definition rotl (x : Z) (c : Z) : Z :=
  w32 (Z.lor (Z.shiftl x c) (Z.shiftr x (32 - c))).

Definition lnot32 (x : Z) : Z := Z.lxor x 4294967295.

Definition K : list Z :=
  [ 3614090360; 3905402710; 606105819; 3250441966; 4118548399; 1200080426; 2821735955; 4249261313;
    1770035416; 2336552879; 4294925233; 2304563134; 1804603682; 4254626195; 2792965006; 1236535329;
    4129170786; 3225465664; 643717713; 3921069994; 3593408605; 38016083; 3634488961; 3889429448;
    568446438; 3275163606; 4107603335; 1163531501; 2850285829; 4243563512; 1735328473; 2368359562;
    4294588738; 2272392833; 1839030562; 4259657740; 2763975236; 1272893353; 4139469664; 3200236656;
    681279174; 3936430074; 3572445317; 76029189; 3654602809; 3873151461; 530742520; 3299628645;
    4096336452; 1126891415; 2878612391; 4237533241; 1700485571; 2399980690; 4293915773; 2240044497;
    1873313359; 4264355552; 2734768916; 1309151649; 4149444226; 3174756917; 718787259; 3951481745 ].

Definition shifts : list Z :=
  [ 7; 12; 17; 22; 7; 12; 17; 22; 7; 12; 17; 22; 7; 12; 17; 22;
    5; 9; 14; 20; 5; 9; 14; 20; 5; 9; 14; 20; 5; 9; 14; 20;
    4; 11; 16; 23; 4; 11; 16; 23; 4; 11; 16; 23; 4; 11; 16; 23;
    6; 10; 15; 21; 6; 10; 15; 21; 6; 10; 15; 21; 6; 10; 15; 21 ].

Definition words4 : Type := (Z * Z * Z * Z)%type.

Definition init : words4 := (1732584193, 4023233417, 2562383102, 271733878).

(** The message as bytes, padded to a multiple of 64 bytes. *)
Definition bytes_of (s : string) : list Z :=
  List.map (fun a => Z.of_N (N_of_ascii a)) (list_ascii_of_string s).

Definition le_bytes (n : nat) (x : Z) : list Z :=
  List.map (fun i => Z.shiftr x (8 * Z.of_nat i) mod 256) (seq 0 n).

Definition pad (msg : list Z) : list Z :=
  let len := Z.of_nat (List.length msg) in
  let zeros := Z.to_nat ((55 - len) mod 64) in
  msg ++ [128] ++ List.repeat 0 zeros ++ le_bytes 8 (8 * len).

Fixpoint le_word (bs : list Z) : Z :=
  match bs with
  | [] => 0
  | b :: bs' => b + 256 * le_word bs'
  end.

Fixpoint words_of (n : nat) (bs : list Z) : list Z :=
  match n with
  | O => []
  | S n' => le_word (firstn 4 bs) :: words_of n' (skipn 4 bs)
  end.

Definition round (M : list Z) (st : words4) (i : nat) : words4 :=
  let '(a, b, c, d) := st in
  let iz := Z.of_nat i in
  let '(f, g) :=
    if iz <? 16 then (Z.lor (Z.land b c) (Z.land (lnot32 b) d), iz)
    else if iz <? 32 then (Z.lor (Z.land d b) (Z.land (lnot32 d) c), (5 * iz + 1) mod 16)
    else if iz <? 48 then (Z.lxor (Z.lxor b c) d, (3 * iz + 5) mod 16)
    else (Z.lxor c (Z.lor b (lnot32 d)), (7 * iz) mod 16) in
  let f' := w32 (f + a + nth i K 0 + nth (Z.to_nat g) M 0) in
  (d, w32 (b + rotl f' (nth i shifts 0)), b, c).

Definition compress (st : words4) (block : list Z) : words4 :=
  let M := words_of 16 block in
  let '(a, b, c, d) := st in
  let '(a', b', c', d') := fold_left (round M) (seq 0 64) st in
  (w32 (a + a'), w32 (b + b'), w32 (c + c'), w32 (d + d')).

Fixpoint blocks (fuel : nat) (st : words4) (bs : list Z) : words4 :=
  match fuel, bs with
  | S fuel', _ :: _ => blocks fuel' (compress st (firstn 64 bs)) (skipn 64 bs)
  | _, _ => st
  end.

Definition digest (s : string) : words4 :=
  let bs := pad (bytes_of s) in
  blocks (List.length bs) init bs.

Definition hexdigit (x : Z) : ascii :=
  match String.get (Z.to_nat (x mod 16)) "0123456789abcdef" with
  | Some c => c
  | None => "0"%char
  end.

Definition hex_byte (b : Z) : string :=
  String (hexdigit (b / 16)) (String (hexdigit b) EmptyString).

Definition hex_word (w : Z) : string :=
  hex_byte (w mod 256) ++ hex_byte (Z.shiftr w 8 mod 256) ++
  hex_byte (Z.shiftr w 16 mod 256) ++ hex_byte (Z.shiftr w 24 mod 256).

Definition hexdigest (s : string) : string :=
  let '(a, b, c, d) := digest s in
  hex_word a ++ hex_word b ++ hex_word c ++ hex_word d.

End MD5.

(* ===================================================================== *)
(** ** Python values, exceptions and the outside world *)
(* ===================================================================== *)

(** What [response.json()] produces and what the metadata calls hand on:
    [PNone] is Python's [None] (and JSON's [null]). *)
#[local] Unset Elimination Schemes.
Inductive pyval : Type :=
| PNone
| PBool (b : bool)
| PInt (n : Z)
| PFloat (q : Q)
| PStr (s : string)
| PList (items : list pyval)
| PDict (fields : list (string * pyval)).
#[local] Set Elimination Schemes.

Inductive exn : Type :=
| OSError (msg : string)
| KeyError (key : string)
| TypeError (msg : string)
| ValueError (msg : string)
| IndexError (msg : string).

(** [str(e)] *)
Definition exn_str (e : exn) : string :=
  match e with
  | OSError m | TypeError m | ValueError m | IndexError m => m
  | KeyError k => "'" ++ k ++ "'"
  end.

Definition is_OSError (e : exn) : bool :=
  match e with OSError _ => true | _ => false end.

Inductive outcome (A : Type) : Type :=
| Ok (a : A)
| Raised (e : exn).
Arguments Ok {A} a.
Arguments Raised {A} e.

(** A node of the file system: a regular file with its last-modified time
    and content, or a directory. *)
Inductive node : Type :=
| File (mtime : Q) (content : list Z)
| Dir (mtime : Q).

Inductive level : Type := DEBUG | INFO | WARNING | ERROR.

Inductive event : Type :=
| EvLog (lv : level) (msg : string)
| EvHttpGet (url : string)
| EvTime
| EvMakedirs (path : string)
| EvExists (path : string)
| EvListdir (path : string)
| EvGetmtime (path : string)
| EvGetsize (path : string)
| EvRemove (path : string)
| EvOpen (path : string)
| EvWrite (path : string) (chunk : list Z)
| EvThreadStart (url filename : string).

(** What [requests.get] can do: raise a [RequestException] (a subclass of
    [OSError]), or deliver a response with a status code and a body. *)
Inductive http_result (B : Type) : Type :=
| ConnectionError (msg : string)
| Response (status_code : Z) (body : B).
Arguments ConnectionError {B} msg.
Arguments Response {B} status_code body.

(** The body of a metadata response: the parsed JSON, or [None] when the
    body is not JSON ([response.json()] raises). *)
Definition api_server : Type := string -> http_result (option pyval).

(** The body of a streamed image response, as [iter_content] delivers it:
    chunks, and possibly a failure of the connection in the middle. *)
Inductive stream_item : Type :=
| Chunk (bytes : list Z)
| StreamError (msg : string).

(** The outside world of one download: the image server, and the faults of
    the disk ([open] refused, the [n]-th [write] refused). *)
Record download_env : Type := {
  image_server : string -> http_result (list stream_item);
  open_error : option string;
  write_error_at : option nat
}.

Record World : Type := {
  fs : gmap string node;
  now : Q;
  trace : list event;
  threads : list (string * string)
}.

(** The attributes of an [EmbyClient] object. [_state] is only assigned by
    the metadata calls: [None] while the attribute does not exist. *)
Record EmbyClient : Type := {
  data : gmap string pyval;
  host : string;
  ssl : string;
  port : string;
  api_key : string;
  user_id : string;
  max_items : Z;
  show_episodes : string;
  img_dir : option string;
  img_cache_days : Z;
  _state : option string
}.

Record St : Type := { self : EmbyClient; world : World }.

Definition with_data (d : gmap string pyval) (c : EmbyClient) : EmbyClient :=
  {| data := d; host := host c; ssl := ssl c; port := port c; api_key := api_key c;
     user_id := user_id c; max_items := max_items c; show_episodes := show_episodes c;
     img_dir := img_dir c; img_cache_days := img_cache_days c; _state := _state c |}.

Definition with_state (s : string) (c : EmbyClient) : EmbyClient :=
  {| data := data c; host := host c; ssl := ssl c; port := port c; api_key := api_key c;
     user_id := user_id c; max_items := max_items c; show_episodes := show_episodes c;
     img_dir := img_dir c; img_cache_days := img_cache_days c; _state := Some s |}.

Definition with_fs (f : gmap string node) (w : World) : World :=
  {| fs := f; now := now w; trace := trace w; threads := threads w |}.

Definition with_event (e : event) (w : World) : World :=
  {| fs := fs w; now := now w; trace := trace w ++ [e]; threads := threads w |}.

Definition with_thread (t : string * string) (w : World) : World :=
  {| fs := fs w; now := now w; trace := trace w; threads := threads w ++ [t] |}.

(* ===================================================================== *)
(** ** The monad of methods: state and exceptions *)
(* ===================================================================== *)

Definition M (A : Type) : Type := St -> outcome A * St.

Definition ret {A} (a : A) : M A := fun st => (Ok a, st).

Definition raise {A} (e : exn) : M A := fun st => (Raised e, st).

Definition bind {A B} (m : M A) (k : A -> M B) : M B :=
  fun st =>
    match m st with
    | (Ok a, st') => k a st'
    | (Raised e, st') => (Raised e, st')
    end.

(** [try: m except E as e: h e], where [catches] tells the exceptions of
    class [E]. The effects of [m] up to the exception stay. *)
Definition try_except {A} (catches : exn -> bool) (m : M A) (h : exn -> M A) : M A :=
  fun st =>
    match m st with
    | (Ok a, st') => (Ok a, st')
    | (Raised e, st') => if catches e then h e st' else (Raised e, st')
    end.

Declare Scope py_scope.
Delimit Scope py_scope with py.
Notation "x <- m ;; k" := (bind m (fun x => k))
  (at level 62, m at next level, k at level 200, right associativity) : py_scope.
Notation "m ;;; k" := (bind m (fun _ => k))
  (at level 62, k at level 200, right associativity) : py_scope.
Local Open Scope py_scope.

Definition get_self : M EmbyClient := fun st => (Ok (self st), st).

Definition set_self (f : EmbyClient -> EmbyClient) : M unit :=
  fun st => (Ok tt, {| self := f (self st); world := world st |}).

Definition get_world : M World := fun st => (Ok (world st), st).

Definition set_world (f : World -> World) : M unit :=
  fun st => (Ok tt, {| self := self st; world := f (world st) |}).

Definition emit (e : event) : M unit := set_world (with_event e).

(** [for x in l: acc = body acc x] *)
Fixpoint for_each {A B} (body : B -> A -> M B) (l : list A) (acc : B) : M B :=
  match l with
  | [] => ret acc
  | x :: l' => acc' <- body acc x ;; for_each body l' acc'
  end.

Definition any_exception (e : exn) : bool := true.

(* ===================================================================== *)
(** ** The library calls the client makes *)
(* ===================================================================== *)

Definition log (lv : level) (msg : string) : M unit := emit (EvLog lv msg).

(** [requests.get(url, timeout=10)]; a failure of the network raises. *)
Definition requests_get {B} (server : string -> http_result B) (url : string) : M (Z * B) :=
  emit (EvHttpGet url) ;;;
  match server url with
  | ConnectionError msg => raise (OSError msg)
  | Response status_code body => ret (status_code, body)
  end.

(** [response.json()] *)
Definition response_json (body : option pyval) : M pyval :=
  match body with
  | Some v => ret v
  | None => raise (ValueError "Expecting value")
  end.

Fixpoint dict_get (key : string) (fields : list (string * pyval)) : option pyval :=
  match fields with
  | [] => None
  | (k, v) :: rest => if String.eqb k key then Some v else dict_get key rest
  end.

(** [v[key]] for a string key *)
Definition subscript (v : pyval) (key : string) : M pyval :=
  match v with
  | PDict fields =>
      match dict_get key fields with
      | Some x => ret x
      | None => raise (KeyError key)
      end
  | _ => raise (TypeError "indices must be integers or the object is not subscriptable")
  end.

(** [v[:n]]: a list is cut, a string too (by character; the model holds
    bytes, which is the same for ASCII text), anything else raises. *)
Definition slice_upto (v : pyval) (n : Z) : M pyval :=
  match v with
  | PList l => ret (PList (PyStr.slice_to n l))
  | PStr s => ret (PStr (string_of_list_ascii (PyStr.slice_to n (list_ascii_of_string s))))
  | _ => raise (TypeError "object is not subscriptable by a slice")
  end.

(** [self.data[key]] *)
Definition data_lookup (key : string) : M pyval :=
  c <- get_self ;;
  match data c !! key with
  | Some v => ret v
  | None => raise (KeyError key)
  end.

(** Python's truth value of [self.img_dir]: [None] and [""] are false. *)
Definition truthy_dir (d : option string) : option string :=
  match d with
  | Some s => if String.eqb s "" then None else Some s
  | None => None
  end.

Definition Qltb (x y : Q) : bool := negb (Qle_bool y x).

(** *** The file system *)

Definition dir_prefix (d : string) : string :=
  if PyStr.endswith "/" d then d else d ++ "/".

Fixpoint strip_prefix (p s : string) : option string :=
  match p, s with
  | EmptyString, _ => Some s
  | String a p', String b s' => if Ascii.eqb a b then strip_prefix p' s' else None
  | String _ _, EmptyString => None
  end.

(** The name under which path [p] is an entry of directory [d], if it is
    one: [p] is [d], a separator, and a name without separator. *)
Definition entry_name (d p : string) : option string :=
  match strip_prefix (dir_prefix d) p with
  | Some n => if String.eqb n "" || PyStr.contains "/" n then None else Some n
  | None => None
  end.

Definition listdir (d : string) (f : gmap string node) : list string :=
  omap (entry_name d) (map_to_list f).*1.

(** Whether path [p] lies directly in a directory that exists: what
    [open] needs of the place where it creates a file. *)
Definition parent_dir_exists (f : gmap string node) (p : string) : bool :=
  existsb (fun qx => match snd qx with
                     | Dir _ =>
                         match entry_name (fst qx) p with
                         | Some _ => true
                         | None => false
                         end
                     | File _ _ => false
                     end)
          (map_to_list f).

(** The paths above [p]: what stands before each of its separators. *)
Fixpoint ancestors_from (acc s : string) : list string :=
  match s with
  | EmptyString => []
  | String c s' =>
      ((if Ascii.eqb c "/" && negb (String.eqb acc "") then [acc] else [])
       ++ ancestors_from (acc ++ String c EmptyString) s')%list
  end.

Definition ancestors (p : string) : list string := ancestors_from "" p.

Definition is_regular (o : option node) : bool :=
  match o with
  | Some (File _ _) => true
  | _ => false
  end.

(** [os.makedirs(p, exist_ok=True)]: nothing to do for a directory; an
    error for a regular file at [p] or at a path above [p]; otherwise the
    directory is made, with the missing ones above it (which the map does
    not record: the program never names them). *)
Definition os_makedirs (p : string) : M unit :=
  emit (EvMakedirs p) ;;;
  w <- get_world ;;
  match fs w !! p with
  | Some (Dir _) => ret tt
  | Some (File _ _) => raise (OSError "File exists")
  | None =>
      if existsb (fun q => is_regular (fs w !! q)) (ancestors p)
      then raise (OSError "Not a directory")
      else set_world (with_fs (<[p := Dir (now w)]> (fs w)))
  end.

Definition os_path_exists (p : string) : M bool :=
  emit (EvExists p) ;;;
  w <- get_world ;;
  ret (match fs w !! p with Some _ => true | None => false end).

Definition os_listdir (d : string) : M (list string) :=
  emit (EvListdir d) ;;;
  w <- get_world ;;
  match fs w !! d with
  | Some (Dir _) => ret (listdir d (fs w))
  | Some (File _ _) => raise (OSError "Not a directory")
  | None => raise (OSError "No such file or directory")
  end.

Definition os_path_getmtime (p : string) : M Q :=
  emit (EvGetmtime p) ;;;
  w <- get_world ;;
  match fs w !! p with
  | Some (File mtime _) | Some (Dir mtime) => ret mtime
  | None => raise (OSError "No such file or directory")
  end.

Definition os_path_getsize (p : string) : M Z :=
  emit (EvGetsize p) ;;;
  w <- get_world ;;
  match fs w !! p with
  | Some (File _ content) => ret (Z.of_nat (List.length content))
  | Some (Dir _) => ret 4096
  | None => raise (OSError "No such file or directory")
  end.

Definition os_remove (p : string) : M unit :=
  emit (EvRemove p) ;;;
  w <- get_world ;;
  match fs w !! p with
  | Some (File _ _) => set_world (with_fs (delete p (fs w)))
  | Some (Dir _) => raise (OSError "Is a directory")
  | None => raise (OSError "No such file or directory")
  end.

Definition time_time : M Q :=
  emit EvTime ;;;
  w <- get_world ;;
  ret (now w).

(** [open(p, 'wb')]: the file is created, or emptied when it exists. It
    raises when the system refuses, when [p] is not in an existing
    directory, and when [p] is a directory. *)
Definition open_wb (env : download_env) (p : string) : M unit :=
  emit (EvOpen p) ;;;
  match open_error env with
  | Some msg => raise (OSError msg)
  | None =>
      w <- get_world ;;
      if negb (parent_dir_exists (fs w) p) then raise (OSError "No such file or directory")
      else
        match fs w !! p with
        | Some (Dir _) => raise (OSError "Is a directory")
        | _ => set_world (with_fs (<[p := File (now w) []]> (fs w)))
        end
  end.

(** The [k]-th [f.write(chunk)] on the file opened at [p]. *)
Definition file_write (env : download_env) (p : string) (k : nat) (chunk : list Z) : M unit :=
  emit (EvWrite p chunk) ;;;
  if decide (write_error_at env = Some k) then raise (OSError "No space left on device")
  else
    w <- get_world ;;
    match fs w !! p with
    | Some (File _ content) => set_world (with_fs (<[p := File (now w) (content ++ chunk)]> (fs w)))
    | _ => ret tt
    end.

(** [threading.Thread(target=self.download_image_sync, args=(url, filename),
    daemon=True).start()]: the download is pending from now on. (That the
    system has no thread left to start is outside the modelled world.) *)
Definition thread_start (url filename : string) : M unit :=
  emit (EvThreadStart url filename) ;;;
  set_world (with_thread (url, filename)).

(* ===================================================================== *)
(** ** class EmbyClient *)
(* ===================================================================== *)

Definition unreachable (c : EmbyClient) : string := host c ++ " cannot be reached".

(** The address [get_view_categories] asks. *)
Definition views_url (c : EmbyClient) : string :=
  "http" ++ ssl c ++ "://" ++ host c ++ ":" ++ port c ++ "/Users/" ++ user_id c
  ++ "/Views?api_key=" ++ api_key c.

(** The address [get_data] asks. *)
Definition latest_url (c : EmbyClient) (categoryId : string) : string :=
  "http" ++ ssl c ++ "://" ++ host c ++ ":" ++ port c ++ "/Users/" ++ user_id c
  ++ "/Items/Latest?Limit=" ++ PyStr.of_Z (max_items c)
  ++ "&Fields=CommunityRating,Studios,PremiereDate,Genres,ChildCount,ProductionYear,DateCreated&ParentId="
  ++ categoryId ++ "&api_key=" ++ api_key c ++ show_episodes c.

(** [get_view_categories(self)] *)
Definition get_view_categories (server : api_server) : M pyval :=
  c <- get_self ;;
  let url := views_url c in
  r <- try_except is_OSError
         (api <- requests_get server url ;; ret (Some api))
         (fun _ =>
            log WARNING ("Host " ++ host c ++ " is not available") ;;;
            set_self (with_state (unreachable c)) ;;;
            ret None) ;;
  match r with
  | None => ret PNone
  | Some (status_code, body) =>
      (if status_code =? 200 then
         j <- response_json body ;;
         items <- subscript j "Items" ;;
         set_self (fun c' => with_data (<["ViewCategories" := items]> (data c')) c')
       else
         log WARNING ("Could not reach url " ++ url) ;;;
         set_self (with_state (unreachable c))) ;;;
      data_lookup "ViewCategories"
  end.

(** [get_data(self, categoryId)] *)
Definition get_data (server : api_server) (categoryId : string) : M pyval :=
  c <- get_self ;;
  let url := latest_url c categoryId in
  r <- try_except is_OSError
         (api <- requests_get server url ;; ret (Some api))
         (fun _ =>
            log WARNING ("Host " ++ host c ++ " is not available") ;;;
            set_self (with_state (unreachable c)) ;;;
            ret None) ;;
  match r with
  | None => ret PNone
  | Some (status_code, body) =>
      if status_code =? 200 then
        set_self (with_state "Online") ;;;
        j <- response_json body ;;
        v <- slice_upto j (max_items c) ;;
        set_self (fun c' => with_data (<[categoryId := v]> (data c')) c') ;;;
        data_lookup categoryId
      else
        log WARNING ("Could not reach url " ++ url) ;;;
        set_self (with_state (unreachable c)) ;;;
        ret PNone
  end.

(** [os.path.join(self.img_dir, filename)]; [None] as first argument raises. *)
Definition join_img_dir (filename : string) : M string :=
  c <- get_self ;;
  match img_dir c with
  | Some d => ret (OsPath.join d filename)
  | None => raise (TypeError "expected str, bytes or os.PathLike object, not NoneType")
  end.

(** The body of [with open(filepath, 'wb') as f: for chunk in
    response.iter_content(1024): f.write(chunk)]; the accumulator counts
    the writes. *)
Definition write_chunk (env : download_env) (filepath : string) (k : nat) (item : stream_item) : M nat :=
  match item with
  | Chunk bytes => file_write env filepath k bytes ;;; ret (S k)
  | StreamError msg => raise (OSError msg)
  end.

(** [download_image_sync(self, url, filename)] *)
Definition download_image_sync (env : download_env) (url filename : string) : M bool :=
  try_except any_exception
    (response <- requests_get (image_server env) url ;;
     let '(status_code, stream) := response in
     if status_code =? 200 then
       filepath <- join_img_dir filename ;;
       open_wb env filepath ;;;
       for_each (write_chunk env filepath) stream O ;;;
       present <- os_path_exists filepath ;;
       if present then
         file_size <- os_path_getsize filepath ;;
         log INFO ("Downloaded: " ++ filename ++ " (" ++ PyStr.of_Z file_size ++ " bytes)") ;;;
         ret true
       else
         log ERROR ("File not created: " ++ filepath) ;;;
         ret false
     else
       log WARNING ("Download failed, status: " ++ PyStr.of_Z status_code) ;;;
       ret false)
    (fun e =>
       log ERROR ("Error downloading image: " ++ exn_str e) ;;;
       ret false).

(** [current_time - (self.img_cache_days * 86400)] *)
Definition cutoff_time (current_time : Q) (days : Z) : Q :=
  Qminus current_time (Qmult (inject_Z days) (inject_Z 86400)).

(** One round of the loop of [cleanup_old_images]. *)
Definition cleanup_entry (d : string) (cutoff : Q) (deleted_count : Z) (filename : string) : M Z :=
  let filepath := OsPath.join d filename in
  if negb (PyStr.endswith ".jpg" filename) then ret deleted_count
  else
    try_except any_exception
      (file_mtime <- os_path_getmtime filepath ;;
       if Qltb file_mtime cutoff then
         os_remove filepath ;;;
         log DEBUG ("Deleted old image: " ++ filename) ;;;
         ret (deleted_count + 1)
       else ret deleted_count)
      (fun e =>
         log WARNING ("Could not delete " ++ filename ++ ": " ++ exn_str e) ;;;
         ret deleted_count).

(** [cleanup_old_images(self)] *)
Definition cleanup_old_images : M unit :=
  c <- get_self ;;
  match truthy_dir (img_dir c) with
  | None => ret tt
  | Some d =>
      present <- os_path_exists d ;;
      if negb present then ret tt
      else
        try_except any_exception
          (current_time <- time_time ;;
           let cutoff := cutoff_time current_time (img_cache_days c) in
           names <- os_listdir d ;;
           deleted_count <- for_each (cleanup_entry d cutoff) names 0 ;;
           if 0 <? deleted_count then
             log INFO ("Cleaned up " ++ PyStr.of_Z deleted_count ++ " old images (older than "
                       ++ PyStr.of_Z (img_cache_days c) ++ " days)")
           else ret tt)
          (fun e => log ERROR ("Error during cleanup: " ++ exn_str e))
  end.

(** The remote address of an image, as [get_image_url] builds it. *)
Definition emby_url (c : EmbyClient) (itemId imageType : string) : string :=
  "http" ++ ssl c ++ "://" ++ host c ++ ":" ++ port c ++ "/Items/" ++ itemId ++ "/Images/"
  ++ imageType ++ "?maxHeight=360&maxWidth=640&quality=90&api_key=" ++ api_key c.

(** Lines 162 to 164: the name of the cache file of a pair. *)
Definition cache_filename (itemId imageType : string) : string :=
  let filename_base := itemId ++ "_" ++ imageType in
  let filename_hash := PyStr.first_chars 8 (MD5.hexdigest filename_base) in
  filename_base ++ "_" ++ filename_hash ++ ".jpg".

(** Lines 179 and 180: the path under which the web server of the host
    serves [filename] of a directory [d] that has a ["/www/"]. *)
Definition local_url (d filename : string) : outcome string :=
  match PyStr.last_item (PyStr.split "/www/" d) with
  | Some local_path => Ok ("/local/" ++ local_path ++ "/" ++ filename)
  | None => Raised (IndexError "list index out of range")
  end.

Definition lift {A} (o : outcome A) : M A := fun st => (o, st).

(** [get_image_url(self, itemId, imageType)] *)
Definition get_image_url (itemId imageType : string) : M string :=
  c <- get_self ;;
  let url := emby_url c itemId imageType in
  match truthy_dir (img_dir c) with
  | None => ret url
  | Some d =>
      let filename := cache_filename itemId imageType in
      let filepath := OsPath.join d filename in
      present <- os_path_exists filepath ;;
      (if negb present then thread_start url filename else ret tt) ;;;
      if PyStr.contains "/www/" d then lift (local_url d filename)
      else
        log WARNING "Image directory doesn't contain /www/" ;;;
        ret url
  end.

(** [__init__]: the attributes, then the directory and the sweep. *)
Definition new_client (host api_key : string) (use_ssl : bool) (port : string) (max_items : Z)
    (user_id : string) (episodes : bool) (img_dir : option string) (img_cache_days : Z)
  : EmbyClient :=
  {| data := ∅; host := host; ssl := if use_ssl then "s" else ""; port := port;
     api_key := api_key; user_id := user_id; max_items := max_items;
     show_episodes := if episodes then "&GroupItems=False" else "";
     img_dir := img_dir; img_cache_days := img_cache_days; _state := None |}.

Definition __init__ : M unit :=
  c <- get_self ;;
  match truthy_dir (img_dir c) with
  | Some d =>
      os_makedirs d ;;;
      log INFO ("Image directory: " ++ d) ;;;
      cleanup_old_images
  | None => ret tt
  end.

(** [EmbyClient(...)] in world [w]. *)
Definition construct (host api_key : string) (use_ssl : bool) (port : string) (max_items : Z)
    (user_id : string) (episodes : bool) (img_dir : option string) (img_cache_days : Z)
    (w : World) : outcome unit * St :=
  __init__ {| self := new_client host api_key use_ssl port max_items user_id episodes
                        img_dir img_cache_days;
              world := w |}.

(* ===================================================================== *)
(** ** Calls and background downloads over time *)
(* ===================================================================== *)

Definition remove_nth {A} (k : nat) (l : list A) : list A := firstn k l ++ skipn (S k) l.

Definition drop_thread (k : nat) (st : St) : St :=
  {| self := self st;
     world := {| fs := fs (world st); now := now (world st); trace := trace (world st);
                 threads := remove_nth k (threads (world st)) |} |}.

Definition tick (t : Q) (st : St) : St :=
  {| self := self st;
     world := {| fs := fs (world st); now := t; trace := trace (world st);
                 threads := threads (world st) |} |}.

(** The history of a client from state [st0]: [runs st0 ps st] when [st]
    is reached by calls of [get_image_url] for the pairs [ps], in that
    order, with pending downloads running to their end in between (each in
    whatever outside world, and as one step), and time passing. *)
Inductive runs (st0 : St) : list (string * string) -> St -> Prop :=
| runs_start :
    runs st0 [] st0
| runs_call (ps : list (string * string)) (st : St) (itemId imageType : string) :
    runs st0 ps st ->
    runs st0 (ps ++ [(itemId, imageType)]) (snd (get_image_url itemId imageType st))
| runs_download (ps : list (string * string)) (st : St) (k : nat) (url filename : string)
    (env : download_env) :
    runs st0 ps st ->
    threads (world st) !! k = Some (url, filename) ->
    runs st0 ps (snd (download_image_sync env url filename (drop_thread k st)))
| runs_tick (ps : list (string * string)) (st : St) (t : Q) :
    runs st0 ps st ->
    runs st0 ps (tick t st).

(** The path of the cache file of a pair in directory [d]. *)
Definition cache_path (d : string) (pair : string * string) : string :=
  OsPath.join d (cache_filename (fst pair) (snd pair)).

(* ===================================================================== *)
(** ** Predicates of the statements *)
(* ===================================================================== *)

(** A regular file last modified before [cutoff]. *)
Definition old_file (cutoff : Q) (n : node) : bool :=
  match n with
  | File mtime _ => Qltb mtime cutoff
  | Dir _ => false
  end.

(** The node at path [p] is a file of directory [d] that the sweep is to
    delete: an entry of [d] named [*.jpg], a regular file, older than
    [cutoff]. *)
Definition expired (d : string) (cutoff : Q) (p : string) (n : node) : bool :=
  match entry_name d p with
  | Some name => PyStr.endswith ".jpg" name && old_file cutoff n
  | None => false
  end.

Definition is_hex (c : ascii) : bool :=
  PyStr.contains (String c EmptyString) "0123456789abcdef".

Fixpoint all_hex (s : string) : bool :=
  match s with
  | EmptyString => true
  | String c s' => is_hex c && all_hex s'
  end.

Definition http_gets (tr : list event) : nat :=
  List.length (List.filter (fun e => match e with EvHttpGet _ => true | _ => false end) tr).

(** A client as [EmbyClient(...)] leaves it, in a world with the cache
    directory in place and nothing in it yet. *)
Definition demo_client : EmbyClient :=
  new_client "emby.lan" "KEY" false "8096" 2 "u1" true (Some "/config/www/emby_images") 30.

Definition demo_world : World :=
  {| fs := {[ "/config/www/emby_images" := Dir 0 ]}; now := 100; trace := []; threads := [] |}.

Definition demo_st : St := {| self := demo_client; world := demo_world |}.

(** A client without cache directory, for the instances below. *)
Definition plain_client : EmbyClient :=
  new_client "emby.lan" "KEY" true "8920" 2 "u1" false None 30.

Definition plain_st : St := {| self := plain_client; world := demo_world |}.

(** A client whose cache directory is not under a web root. *)
Definition tmp_client : EmbyClient :=
  new_client "emby.lan" "KEY" false "8096" 2 "u1" true (Some "/tmp/emby_images") 30.

Definition tmp_st : St := {| self := tmp_client; world := demo_world |}.

(** A server that answers every request with status 500 and no JSON, one
    that cannot be reached, and one that answers with three items. *)
Definition server_500 : api_server := fun _ => Response 500 None.

Definition server_down : api_server := fun _ => ConnectionError "Connection refused".

Definition server_3 : api_server :=
  fun _ => Response 200 (Some (PList [PStr "a"; PStr "b"; PStr "c"])).

(** A client that fetched its categories earlier. *)
Definition stale_st : St :=
  {| self := with_data {[ "ViewCategories" := PList [PStr "Movies"] ]} demo_client;
     world := demo_world |}.

(** An image server whose connection breaks after the first chunk, and
    one that does not have the image. *)
Definition env_reset : download_env :=
  {| image_server := fun _ => Response 200 [Chunk [1; 2; 3]; StreamError "Connection reset by peer"];
     open_error := None; write_error_at := None |}.


(** An image server that delivers the image in one chunk. *)
Definition env_ok : download_env :=
  {| image_server := fun _ => Response 200 [Chunk [255; 216; 255]];
     open_error := None; write_error_at := None |}.

Definition is_file (o : option node) : Prop := exists mtime content, o = Some (File mtime content).

Definition is_dir (o : option node) : Prop := exists mtime, o = Some (Dir mtime).

(** The file [download_image_sync] opens: the request was answered with
    status 200, there is a cache directory, and [open] went through (the
    system did not refuse, the path is in an existing directory and is
    not a directory itself). *)
Definition opened (env : download_env) (url filename : string) (st : St) (p : string) : Prop :=
  exists stream d,
    image_server env url = Response 200 stream /\
    img_dir (self st) = Some d /\ p = OsPath.join d filename /\
    open_error env = None /\
    parent_dir_exists (fs (world st)) p = true /\
    ~ is_dir (fs (world st) !! p).

(** The bytes of a stream that reach the file: the chunks before the
    stream breaks or a write is refused ([k] counts the writes). *)
Fixpoint written (fault : option nat) (k : nat) (stream : list stream_item) : list Z :=
  match stream with
  | [] => []
  | Chunk bytes :: rest =>
      if decide (fault = Some k) then [] else (bytes ++ written fault (S k) rest)%list
  | StreamError _ :: _ => []
  end.

(** Whether the stream breaks or a write is refused on the way. *)
Fixpoint stream_fails (fault : option nat) (k : nat) (stream : list stream_item) : bool :=
  match stream with
  | [] => false
  | Chunk _ :: rest => if decide (fault = Some k) then true else stream_fails fault (S k) rest
  | StreamError _ :: _ => true
  end.

(** What one round of the sweep does to the files: the entry [n] of [d]
    goes when it is named [*.jpg] and is an old regular file. *)
Definition sweep_one (d : string) (cutoff : Q) (f : gmap string node) (n : string)
  : gmap string node :=
  if PyStr.endswith ".jpg" n
     && match f !! OsPath.join d n with
        | Some x => old_file cutoff x
        | None => false
        end
  then delete (OsPath.join d n) f
  else f.

Definition day : Z := 86400.

(** A cache directory forty days after its oldest files were written. *)
Definition swept_world : World :=
  {| fs := {[ "/config/www/emby_images" := Dir 0;
              "/config/www/emby_images/old.jpg" := File 0 [1; 2];
              "/config/www/emby_images/new.jpg" := File (inject_Z (35 * day)) [3];
              "/config/www/emby_images/old.txt" := File 0 [] ]};
     now := inject_Z (40 * day); trace := []; threads := [] |}.

Definition swept_st : St := {| self := demo_client; world := swept_world |}.

(* ===================================================================== *)
(** ** Further instances *)
(* ===================================================================== *)

(** A server that lists two categories, one whose answer has no ["Items"],
    and one whose answer is not JSON. *)
Definition server_views : api_server :=
  fun _ => Response 200 (Some (PDict [("Items", PList [PStr "Movies"; PStr "Shows"]);
                                      ("TotalRecordCount", PInt 2)])).

Definition server_no_items : api_server :=
  fun _ => Response 200 (Some (PDict [("TotalRecordCount", PInt 0)])).

Definition server_html : api_server := fun _ => Response 200 None.

(** A client configured with a negative bound. *)
Definition negative_st : St :=
  {| self := new_client "emby.lan" "KEY" false "8096" (-1) "u1" true
               (Some "/config/www/emby_images") 30;
     world := demo_world |}.

(** A world where the image of the pair [("1_2", "Primary")] is cached. *)
Definition cached_world : World :=
  {| fs := {[ "/config/www/emby_images" := Dir 0;
              "/config/www/emby_images/1_2_Primary_ab4c5fab.jpg" := File 0 [] ]};
     now := 100; trace := []; threads := [] |}.

Definition cached_st : St := {| self := demo_client; world := cached_world |}.

(** A world where an image was cached forty days ago. *)
Definition aged_world : World :=
  {| fs := {[ "/config/www/emby_images" := Dir 0;
              "/config/www/emby_images/42_Primary_7ab37ce5.jpg" := File 0 [255; 216] ]};
     now := inject_Z (40 * day); trace := []; threads := [] |}.

Definition aged_st : St := {| self := demo_client; world := aged_world |}.

(** A client whose cache directory does not exist, and a world where a
    regular file is in the place of the cache directory. *)
Definition empty_world : World := {| fs := ∅; now := 100; trace := []; threads := [] |}.

Definition empty_st : St := {| self := demo_client; world := empty_world |}.

(** A world where the place above the cache directory is a regular file. *)
Definition under_file_world : World :=
  {| fs := {[ "/config/www" := File 0 [] ]}; now := 100; trace := []; threads := [] |}.

Definition blocked_world : World :=
  {| fs := {[ "/config/www/emby_images" := File 0 [] ]}; now := 100; trace := [];
     threads := [] |}.

(* ===================================================================== *)
(** ** Running a method by hand *)
(* ===================================================================== *)

Ltac run :=
  cbv beta iota zeta delta
    [bind ret raise lift try_except get_self set_self get_world set_world emit log
     requests_get response_json data_lookup thread_start time_time join_img_dir
     os_path_exists os_path_getmtime os_path_getsize os_remove os_listdir os_makedirs
     open_wb file_write with_event with_fs with_thread with_data with_state
     is_OSError any_exception];
  cbn [fst snd self world fs now trace threads
       data host ssl port api_key user_id max_items show_episodes img_dir img_cache_days _state].

Ltac trace_eq := rewrite <- ?app_assoc; reflexivity.

Ltac not_opened H :=
  let p := fresh "p" in let s := fresh "s" in let d := fresh "d" in
  let H1 := fresh in let H2 := fresh in let H3 := fresh in let H4 := fresh in
  let H5 := fresh in let H6 := fresh in
  first [ intros p (s & d & H1 & H2 & H3 & H4 & H5 & H6)
        | intros p ? (s & d & H1 & H2 & H3 & H4 & H5 & H6) ];
  cbn [self world fs img_dir] in *;
  first [ congruence
        | exfalso; apply H6; subst p; injection H2 as <-; eexists; exact H ].

Example md5_empty : MD5.hexdigest "" = "d41d8cd98f00b204e9800998ecf8427e".
Proof. vm_compute. reflexivity. Qed.

Example md5_abc : MD5.hexdigest "abc" = "900150983cd24fb0d6963f7d28e17f72".
Proof. vm_compute. reflexivity. Qed.

Example md5_42_Primary : MD5.hexdigest "42_Primary" = "7ab37ce50c9e6b2ab51d3e44ab9a340e".
Proof. vm_compute. reflexivity. Qed.

Example md5_two_blocks :
  MD5.hexdigest "aaaaaaaaaaaaaaaaaaaaaaaaaaaaaaaaaaaaaaaaaaaaaaaaaaaaaaaaaaaaaaaaaaaaaa"
  = "0f5c6c4e740bfcc08c3c26ccb2673d46".
Proof. vm_compute. reflexivity. Qed.

Example split_www : PyStr.split "/www/" "/config/www/emby_images" = ["/config"; "emby_images"].
Proof. reflexivity. Qed.

Example split_overlap : PyStr.split "/www/" "/www/www/" = [""; "www/"].
Proof. reflexivity. Qed.

Example of_Z_neg : PyStr.of_Z (-30) = "-30".
Proof. reflexivity. Qed.

Example join_plain : OsPath.join "/config/www/emby_images" "a.jpg" = "/config/www/emby_images/a.jpg".
Proof. reflexivity. Qed.

(* ===================================================================== *)
(** ** The address of an image *)
(* ===================================================================== *)

(** C3. Without a cache directory ([img_dir] is [None] or empty),
    [get_image_url] returns the remote address
    [http(s)://host:port/Items/{itemId}/Images/{imageType}?maxHeight=360&maxWidth=640&quality=90&api_key={apiKey}]
    and leaves the whole state as it was: no event is added to the trace
    (no call of the file system, no request), no file changes and no
    download is started. *)
Theorem get_image_url_cache_disabled (st : St) (itemId imageType : string) :
  truthy_dir (img_dir (self st)) = None ->
  get_image_url itemId imageType st =
    (Ok ("http" ++ ssl (self st) ++ "://" ++ host (self st) ++ ":" ++ port (self st)
         ++ "/Items/" ++ itemId ++ "/Images/" ++ imageType
         ++ "?maxHeight=360&maxWidth=640&quality=90&api_key=" ++ api_key (self st)),
     st).
Proof.
  intros Hoff. unfold get_image_url. run. rewrite Hoff. reflexivity.
Qed.

Lemma get_image_url_cache_disabled_witness :
  truthy_dir (img_dir (self plain_st)) = None /\
  get_image_url "42" "Primary" plain_st =
    (Ok "https://emby.lan:8920/Items/42/Images/Primary?maxHeight=360&maxWidth=640&quality=90&api_key=KEY",
     plain_st).
Proof.
  split; [reflexivity | exact (get_image_url_cache_disabled plain_st "42" "Primary" eq_refl)].
Defined.

(** C9. With a cache directory that has no ["/www/"] in it,
    [get_image_url] logs a warning, as its last action, and returns the
    remote address. *)
Theorem get_image_url_without_www (st : St) (itemId imageType d : string) :
  truthy_dir (img_dir (self st)) = Some d ->
  PyStr.contains "/www/" d = false ->
  let r := get_image_url itemId imageType st in
  fst r = Ok (emby_url (self st) itemId imageType) /\
  exists tr, trace (world (snd r)) =
             (tr ++ [EvLog WARNING "Image directory doesn't contain /www/"])%list.
Proof.
  intros Hon Hno. unfold get_image_url. run. rewrite Hon.
  destruct (_ !! OsPath.join d (cache_filename itemId imageType)); cbn [negb]; run;
    rewrite Hno; run; (split; [reflexivity | eexists; reflexivity]).
Qed.

Lemma get_image_url_without_www_witness :
  fst (get_image_url "42" "Primary" tmp_st) =
    Ok "http://emby.lan:8096/Items/42/Images/Primary?maxHeight=360&maxWidth=640&quality=90&api_key=KEY" /\
  exists tr, trace (world (snd (get_image_url "42" "Primary" tmp_st))) =
             (tr ++ [EvLog WARNING "Image directory doesn't contain /www/"])%list.
Proof.
  exact (get_image_url_without_www tmp_st "42" "Primary" "/tmp/emby_images" eq_refl eq_refl).
Defined.

(* ===================================================================== *)
(** ** The metadata calls *)
(* ===================================================================== *)

(** When the network fails, [get_view_categories] returns [None], records
    that the host cannot be reached and raises nothing. *)
Lemma get_view_categories_network_failure (server : api_server) (st : St) (msg : string) :
  server (views_url (self st)) = ConnectionError msg ->
  let r := get_view_categories server st in
  fst r = Ok PNone /\
  _state (self (snd r)) = Some (host (self st) ++ " cannot be reached") /\
  data (self (snd r)) = data (self st).
Proof.
  intros Hnet. unfold get_view_categories. run. rewrite Hnet. run. auto.
Qed.

(** On a status other than 200, [get_view_categories] goes on to
    [return self.data["ViewCategories"]]: the categories of an earlier
    call when there was one, a [KeyError] otherwise. *)
Lemma get_view_categories_non_200 (server : api_server) (st : St) (status : Z)
    (body : option pyval) :
  server (views_url (self st)) = Response status body ->
  status <> 200 ->
  fst (get_view_categories server st) =
    match data (self st) !! "ViewCategories" with
    | Some v => Ok v
    | None => Raised (KeyError "ViewCategories")
    end.
Proof.
  intros Hnet Hst. unfold get_view_categories. run. rewrite Hnet. run.
  destruct (Z.eqb_spec status 200) as [|_]; [contradiction|]. run.
  destruct (data (self st) !! "ViewCategories"); reflexivity.
Qed.

(** C6, at a client that has fetched nothing yet and a server that answers
    500: [get_view_categories] raises [KeyError], where the claim has it
    return nothing without raising. *)
Theorem get_view_categories_500_raises :
  fst (get_view_categories server_500 demo_st) = Raised (KeyError "ViewCategories").
Proof.
  exact (get_view_categories_non_200 server_500 demo_st 500 None eq_refl ltac:(discriminate)).
Qed.

(** With categories from an earlier call, the same answer makes
    [get_view_categories] return those, not [None]. *)
Example get_view_categories_500_stale :
  fst (get_view_categories server_500 stale_st) = Ok (PList [PStr "Movies"]).
Proof.
  exact (get_view_categories_non_200 server_500 stale_st 500 None eq_refl ltac:(discriminate)).
Qed.

Example get_view_categories_down :
  fst (get_view_categories server_down demo_st) = Ok PNone /\
  _state (self (snd (get_view_categories server_down demo_st)))
    = Some "emby.lan cannot be reached".
Proof.
  destruct (get_view_categories_network_failure server_down demo_st _ eq_refl) as (H1 & H2 & _).
  split; [exact H1 | exact H2].
Qed.

(** C10. On a status other than 200, [get_data] returns [None] and leaves
    [self.data], and so the snapshot stored for the category, as it was. *)
Theorem get_data_non_200 (server : api_server) (st : St) (categoryId : string) (status : Z)
    (body : option pyval) :
  server (latest_url (self st) categoryId) = Response status body ->
  status <> 200 ->
  let r := get_data server categoryId st in
  fst r = Ok PNone /\
  data (self (snd r)) = data (self st) /\
  data (self (snd r)) !! categoryId = data (self st) !! categoryId.
Proof.
  intros Hnet Hst. unfold get_data. run. rewrite Hnet. run.
  destruct (Z.eqb_spec status 200) as [|_]; [contradiction|]. run. auto.
Qed.

Lemma get_data_non_200_witness :
  fst (get_data server_500 "7" demo_st) = Ok PNone /\
  data (self (snd (get_data server_500 "7" demo_st))) = data (self demo_st) /\
  data (self (snd (get_data server_500 "7" demo_st))) !! "7" = data (self demo_st) !! "7".
Proof.
  exact (get_data_non_200 server_500 demo_st "7" 500 None eq_refl ltac:(discriminate)).
Defined.

(** C8. On status 200 with a list as body, and [max_items] a count (not
    negative), [get_data] returns the first [max_items] elements of the
    list, in the order of the server: at most [max_items] items. *)
Theorem get_data_truncates (server : api_server) (st : St) (categoryId : string)
    (items : list pyval) :
  server (latest_url (self st) categoryId) = Response 200 (Some (PList items)) ->
  0 <= max_items (self st) ->
  exists result,
    fst (get_data server categoryId st) = Ok (PList result) /\
    result = firstn (Z.to_nat (max_items (self st))) items /\
    Z.of_nat (List.length result) <= max_items (self st).
Proof.
  intros Hnet Hcount. unfold get_data. run. rewrite Hnet. run.
  unfold slice_upto, PyStr.slice_to.
  destruct (Z.leb_spec 0 (max_items (self st))) as [_|]; [|lia].
  rewrite Z.eqb_refl. run. rewrite lookup_insert_eq.
  eexists. split; [reflexivity|]. split; [reflexivity|].
  rewrite length_firstn. lia.
Qed.

Lemma get_data_truncates_witness :
  exists result,
    fst (get_data server_3 "7" demo_st) = Ok (PList result) /\
    result = firstn (Z.to_nat (max_items (self demo_st))) [PStr "a"; PStr "b"; PStr "c"] /\
    Z.of_nat (List.length result) <= max_items (self demo_st).
Proof.
  exact (get_data_truncates server_3 demo_st "7" [PStr "a"; PStr "b"; PStr "c"] eq_refl
           ltac:(vm_compute; discriminate)).
Defined.

(* ===================================================================== *)
(** ** Facts about search and split *)
(* ===================================================================== *)

Section StringFacts.

Import PyStr.

Lemma str_app_cons (x : ascii) (a b : string) : String x a ++ b = String x (a ++ b).
Proof. reflexivity. Qed.

Lemma str_app_nil (b : string) : "" ++ b = b.
Proof. reflexivity. Qed.

Lemma str_app_assoc (a b c : string) : (a ++ b) ++ c = a ++ (b ++ c).
Proof.
  induction a as [|x a IH]; [reflexivity|].
  rewrite !str_app_cons. f_equal. exact IH.
Qed.

Lemma str_app_empty_r (a : string) : a ++ "" = a.
Proof.
  induction a as [|x a IH]; [reflexivity|].
  rewrite str_app_cons. f_equal. exact IH.
Qed.

Lemma str_app_length (a b : string) :
  String.length (a ++ b) = (String.length a + String.length b)%nat.
Proof.
  induction a as [|x a IH]; [reflexivity|].
  rewrite str_app_cons. simpl. f_equal. exact IH.
Qed.

Lemma startswith_app (p r : string) : startswith p (p ++ r) = true.
Proof.
  induction p as [|x p IH]; [reflexivity|].
  rewrite str_app_cons. simpl. now rewrite Ascii.eqb_refl.
Qed.

Lemma startswith_inv (p s : string) : startswith p s = true -> exists r, s = p ++ r.
Proof.
  revert s. induction p as [|x p IH]; intros s H.
  - exists s. reflexivity.
  - destruct s as [|y s]; simpl in H; [discriminate|].
    destruct (Ascii.eqb_spec x y) as [->|]; [|discriminate].
    destruct (IH s H) as [r ->]. exists r. reflexivity.
Qed.

Lemma contains_app (sub pre post : string) : contains sub (pre ++ sub ++ post) = true.
Proof.
  induction pre as [|x pre IH].
  - rewrite str_app_nil. pose proof (startswith_app sub post) as H.
    destruct (sub ++ post); simpl; rewrite H; reflexivity.
  - rewrite str_app_cons. simpl. rewrite IH. apply orb_true_r.
Qed.

Lemma contains_inv (sub s : string) :
  contains sub s = true -> exists pre post, s = pre ++ sub ++ post.
Proof.
  induction s as [|x s IH]; simpl; intros H.
  - destruct (startswith_inv _ _ H) as [r Hr]. exists "", r. exact Hr.
  - apply orb_true_iff in H as [H|H].
    + destruct (startswith_inv _ _ H) as [r Hr]. exists "", r. exact Hr.
    + destruct (IH H) as (pre & post & ->). exists (String x pre), post. reflexivity.
Qed.

Variable sep : string.
Hypothesis sep_nonempty : sep <> "".

Lemma split_skip (x rest cur : string) :
  split_from sep (String.length x) cur (x ++ rest) = split_from sep O cur rest.
Proof.
  induction x as [|c x IH]; [destruct rest; reflexivity|].
  rewrite str_app_cons. simpl. exact IH.
Qed.

Lemma split_no_sep (s cur : string) :
  contains sep s = false -> split_from sep O cur s = [cur ++ s].
Proof.
  revert cur. induction s as [|c s IH]; intros cur H; simpl in *.
  - now rewrite str_app_empty_r.
  - apply orb_false_iff in H as [H1 H2]. rewrite H1, (IH _ H2), str_app_assoc.
    reflexivity.
Qed.

Lemma last_item_cons (x : string) (l : list string) (p : string) :
  last_item l = Some p -> last_item (x :: l) = Some p.
Proof. destruct l; [discriminate | intros H; exact H]. Qed.

(** The last piece of a split is what follows an occurrence of the
    separator, and has no further occurrence in it. *)
Lemma split_last (n : nat) :
  forall s cur, (String.length s <= n)%nat -> contains sep s = true ->
  exists pre post,
    s = pre ++ sep ++ post /\ contains sep post = false /\
    last_item (split_from sep O cur s) = Some post.
Proof.
  induction n as [|n IH]; intros s cur Hlen Hin.
  - destruct s; [|simpl in Hlen; lia].
    simpl in Hin. destruct sep; [contradiction | discriminate].
  - destruct s as [|c s].
    { simpl in Hin. destruct sep; [contradiction | discriminate]. }
    simpl in Hlen. cbn [split_from]. destruct (startswith sep (String c s)) eqn:Hsw.
    + destruct (startswith_inv _ _ Hsw) as [r Hr].
      destruct sep as [|a sep'] eqn:Esep; [contradiction|].
      rewrite <- Esep in *. rewrite Esep, str_app_cons in Hr. injection Hr as -> ->.
      replace (Nat.pred (String.length sep)) with (String.length sep')
        by (rewrite Esep; reflexivity).
      rewrite split_skip.
      destruct (contains sep r) eqn:Hcr.
      * destruct (IH r "" ltac:(rewrite str_app_length in Hlen; lia) Hcr)
          as (pre & post & -> & Hpost & Hlast).
        exists (sep ++ pre), post. split; [|split; [exact Hpost|]].
        -- rewrite Esep, !str_app_cons, !str_app_assoc. reflexivity.
        -- apply last_item_cons, Hlast.
      * exists "", r. split; [rewrite Esep; reflexivity|]. split; [exact Hcr|].
        apply last_item_cons. rewrite (split_no_sep _ _ Hcr). reflexivity.
    + simpl in Hin. rewrite Hsw in Hin. simpl in Hin.
      destruct (IH s (cur ++ String c "") ltac:(lia) Hin)
        as (pre & post & -> & Hpost & Hlast).
      exists (String c pre), post. split; [reflexivity|]. split; assumption.
Qed.

End StringFacts.

(** C4. For a directory [d] with ["/www/"] in it and any [filename], the
    translation of lines 179 and 180 yields ["/local/" post "/" filename],
    where [post] is what follows the marker in [d] (the last one: [post]
    has no marker in it); this is what [get_image_url] returns for such a
    directory. For ["/config/www/emby_images"] and
    ["42_Primary_ab12cd34.jpg"] the result is
    ["/local/emby_images/42_Primary_ab12cd34.jpg"]. *)
Theorem local_url_after_marker :
  (forall d filename : string,
     PyStr.contains "/www/" d = true ->
     exists pre post,
       d = pre ++ "/www/" ++ post /\
       PyStr.contains "/www/" post = false /\
       local_url d filename = Ok ("/local/" ++ post ++ "/" ++ filename) /\
       forall (st : St) (itemId imageType : string),
         truthy_dir (img_dir (self st)) = Some d ->
         fst (get_image_url itemId imageType st) =
           Ok ("/local/" ++ post ++ "/" ++ cache_filename itemId imageType)) /\
  local_url "/config/www/emby_images" "42_Primary_ab12cd34.jpg"
    = Ok "/local/emby_images/42_Primary_ab12cd34.jpg".
Proof.
  split; [|reflexivity].
  intros d filename Hin.
  destruct (split_last "/www/" ltac:(discriminate) (String.length d) d "" (Nat.le_refl _) Hin)
    as (pre & post & Hd & Hpost & Hlast).
  exists pre, post. split; [exact Hd|]. split; [exact Hpost|].
  unfold local_url, PyStr.split. rewrite Hlast. split; [reflexivity|].
  intros st itemId imageType Hon. unfold get_image_url. run. rewrite Hon.
  destruct (_ !! OsPath.join d (cache_filename itemId imageType)); cbn [negb]; run;
    rewrite Hin; run; unfold local_url, PyStr.split; rewrite Hlast; reflexivity.
Qed.

Lemma local_url_after_marker_witness :
  exists pre post,
    "/config/www/emby_images" = pre ++ "/www/" ++ post /\
    PyStr.contains "/www/" post = false /\
    local_url "/config/www/emby_images" "42_Primary_ab12cd34.jpg"
      = Ok ("/local/" ++ post ++ "/" ++ "42_Primary_ab12cd34.jpg") /\
    forall (st : St) (itemId imageType : string),
      truthy_dir (img_dir (self st)) = Some "/config/www/emby_images" ->
      fst (get_image_url itemId imageType st) =
        Ok ("/local/" ++ post ++ "/" ++ cache_filename itemId imageType).
Proof.
  exact (proj1 local_url_after_marker "/config/www/emby_images" "42_Primary_ab12cd34.jpg" eq_refl).
Defined.

(* ===================================================================== *)
(** ** The name of a cache file *)
(* ===================================================================== *)

Lemma hexdigit_is_hex (x : Z) : is_hex (MD5.hexdigit x) = true.
Proof.
  unfold MD5.hexdigit.
  assert (Hn : (Z.to_nat (x mod 16) < 16)%nat).
  { pose proof (Z.mod_pos_bound x 16 ltac:(lia)). lia. }
  revert Hn. generalize (Z.to_nat (x mod 16)). intros n Hn.
  do 16 (destruct n as [|n]; [reflexivity|]). lia.
Qed.

Lemma hex_word_all_hex (w : Z) : all_hex (MD5.hex_word w) = true.
Proof.
  cbv [MD5.hex_word MD5.hex_byte append all_hex].
  rewrite !hexdigit_is_hex. reflexivity.
Qed.

Lemma hex_word_length (w : Z) : String.length (MD5.hex_word w) = 8%nat.
Proof. reflexivity. Qed.

Lemma hexdigest_length (s : string) : String.length (MD5.hexdigest s) = 32%nat.
Proof. unfold MD5.hexdigest. destruct (MD5.digest s) as [[[a b] c] d]. reflexivity. Qed.

(** The first eight characters of a digest are its first word in hex. *)
Lemma hexdigest_first8 (s : string) :
  exists w, PyStr.first_chars 8 (MD5.hexdigest s) = MD5.hex_word w.
Proof.
  unfold MD5.hexdigest. destruct (MD5.digest s) as [[[a b] c] d].
  exists a. reflexivity.
Qed.

(** C1. The name [get_image_url] computes for a pair is
    [{itemId}_{imageType}_{hash8}.jpg], with [hash8] the first eight
    characters, all of them hex digits, of the MD5 digest of
    [{itemId}_{imageType}]. The name depends on the pair alone: whatever
    the state of a client with a cache directory [d], the call looks for
    the file of that name in [d], and a download it starts is for that
    name. *)
Theorem cache_filename_deterministic (itemId imageType : string) :
  exists hash8,
    hash8 = PyStr.first_chars 8 (MD5.hexdigest (itemId ++ "_" ++ imageType)) /\
    String.length hash8 = 8%nat /\
    all_hex hash8 = true /\
    cache_filename itemId imageType = itemId ++ "_" ++ imageType ++ "_" ++ hash8 ++ ".jpg" /\
    forall (st : St) (d : string),
      truthy_dir (img_dir (self st)) = Some d ->
      let filename := itemId ++ "_" ++ imageType ++ "_" ++ hash8 ++ ".jpg" in
      let st' := snd (get_image_url itemId imageType st) in
      (exists tr, trace (world st') =
                  (trace (world st) ++ EvExists (OsPath.join d filename) :: tr)%list) /\
      (threads (world st') = threads (world st) \/
       threads (world st') =
         (threads (world st) ++ [(emby_url (self st) itemId imageType, filename)])%list).
Proof.
  assert (Hname : cache_filename itemId imageType =
                  itemId ++ "_" ++ imageType ++ "_"
                  ++ PyStr.first_chars 8 (MD5.hexdigest (itemId ++ "_" ++ imageType)) ++ ".jpg").
  { unfold cache_filename. rewrite !str_app_assoc. reflexivity. }
  eexists. split; [reflexivity|].
  destruct (hexdigest_first8 (itemId ++ "_" ++ imageType)) as [w Hw].
  split; [rewrite Hw; apply hex_word_length|].
  split; [rewrite Hw; apply hex_word_all_hex|].
  split; [exact Hname|].
  intros st d Hon. cbv zeta. rewrite <- Hname.
  unfold get_image_url. run. rewrite Hon.
  destruct (_ !! OsPath.join d (cache_filename itemId imageType)); cbn [negb]; run;
    destruct (PyStr.contains "/www/" d); run;
    (split; [eexists; rewrite <- ?app_assoc; reflexivity | auto]).
Qed.

Lemma cache_filename_deterministic_witness :
  cache_filename "42" "Primary" = "42_Primary_7ab37ce5.jpg" /\
  exists tr, trace (world (snd (get_image_url "42" "Primary" demo_st))) =
             (trace (world demo_st)
              ++ EvExists (OsPath.join "/config/www/emby_images" "42_Primary_7ab37ce5.jpg")
                 :: tr)%list.
Proof.
  destruct (cache_filename_deterministic "42" "Primary") as (h & Hh & _ & _ & Hname & Hrun).
  assert (Eh : h = "7ab37ce5") by (rewrite Hh; vm_compute; reflexivity).
  rewrite Eh in *. split; [exact Hname|].
  destruct (Hrun demo_st "/config/www/emby_images" eq_refl) as [Htr _]. exact Htr.
Defined.

(* ===================================================================== *)
(** ** The sweep of old images *)
(* ===================================================================== *)

Lemma Qltb_lt (x y : Q) : Qltb x y = true <-> (x < y)%Q.
Proof.
  unfold Qltb. rewrite negb_true_iff. split.
  - intros H. apply Qnot_le_lt. intros Hle. apply Qle_bool_iff in Hle. congruence.
  - intros H. destruct (Qle_bool y x) eqn:E; [|reflexivity].
    apply Qle_bool_iff in E. exfalso. exact (Qlt_not_le _ _ H E).
Qed.

Lemma Qltb_ge (x y : Q) : Qltb x y = false <-> (y <= x)%Q.
Proof.
  unfold Qltb. rewrite negb_false_iff. apply Qle_bool_iff.
Qed.

Section Paths.

Import PyStr.

Lemma strip_prefix_inv (pre p n : string) : strip_prefix pre p = Some n -> p = pre ++ n.
Proof.
  revert p. induction pre as [|x pre IH]; intros p H.
  - simpl in H. injection H as ->. reflexivity.
  - destruct p as [|y p]; simpl in H; [discriminate|].
    destruct (Ascii.eqb_spec x y) as [->|]; [|discriminate].
    rewrite str_app_cons. f_equal. exact (IH p H).
Qed.

Lemma strip_prefix_app (pre n : string) : strip_prefix pre (pre ++ n) = Some n.
Proof.
  induction pre as [|x pre IH]; [reflexivity|].
  rewrite str_app_cons. simpl. rewrite Ascii.eqb_refl. exact IH.
Qed.

Lemma plain_not_absolute (n : string) : contains "/" n = false -> startswith "/" n = false.
Proof.
  destruct n as [|c n]; [reflexivity|].
  cbn [contains]. intros H. apply orb_false_iff in H as [H _]. exact H.
Qed.

(** For a name without separator, [os.path.join] puts the name after the
    directory and one separator. *)
Lemma join_plain_name (d n : string) :
  d <> "" -> contains "/" n = false -> OsPath.join d n = dir_prefix d ++ n.
Proof.
  intros Hd Hn. unfold OsPath.join, dir_prefix. rewrite (plain_not_absolute _ Hn).
  destruct (String.eqb_spec d "") as [|_]; [contradiction|]. cbn [orb].
  destruct (endswith "/" d); [reflexivity|]. now rewrite str_app_assoc.
Qed.

Lemma entry_name_join (d p n : string) :
  d <> "" -> entry_name d p = Some n -> p = OsPath.join d n.
Proof.
  intros Hd. unfold entry_name.
  destruct (strip_prefix (dir_prefix d) p) as [n'|] eqn:E; [|discriminate].
  destruct (String.eqb n' "" || contains "/" n') eqn:Hplain; [discriminate|].
  intros H. injection H as <-. apply orb_false_iff in Hplain as [_ Hplain].
  rewrite (join_plain_name _ _ Hd Hplain). exact (strip_prefix_inv _ _ _ E).
Qed.

Lemma join_entry_name (d n : string) :
  d <> "" -> n <> "" -> contains "/" n = false -> entry_name d (OsPath.join d n) = Some n.
Proof.
  intros Hd Hn Hplain. rewrite (join_plain_name _ _ Hd Hplain).
  unfold entry_name. rewrite strip_prefix_app, Hplain.
  destruct (String.eqb_spec n "") as [|_]; [contradiction | reflexivity].
Qed.

Lemma elem_of_listdir (d n : string) (f : gmap string node) :
  n ∈ listdir d f <-> exists p x, f !! p = Some x /\ entry_name d p = Some n.
Proof.
  unfold listdir. rewrite list_elem_of_omap. split.
  - intros (p & Hp & Hn). apply list_elem_of_fmap in Hp as ([p' x] & -> & Hp).
    apply elem_of_map_to_list in Hp. exists p', x. auto.
  - intros (p & x & Hp & Hn). exists p. split; [|exact Hn].
    apply list_elem_of_fmap. exists (p, x). split; [reflexivity|].
    apply elem_of_map_to_list. exact Hp.
Qed.

Lemma truthy_dir_nonempty (o : option string) (d : string) :
  truthy_dir o = Some d -> o = Some d /\ d <> "".
Proof.
  destruct o as [s|]; simpl; [|discriminate].
  destruct (String.eqb_spec s ""); [discriminate|]. intros H. injection H as <-. auto.
Qed.

End Paths.

Section Sweep.

Variable d : string.
Variable cutoff : Q.

(** One round of the loop: nothing is raised, the client is untouched and
    the files change as [sweep_one] says. *)
Lemma cleanup_entry_spec (cnt : Z) (n : string) (st : St) :
  exists cnt' tr,
    cleanup_entry d cutoff cnt n st =
      (Ok cnt',
       {| self := self st;
          world := {| fs := sweep_one d cutoff (fs (world st)) n; now := now (world st);
                      trace := tr; threads := threads (world st) |} |}).
Proof.
  destruct st as [c [f t tr th]]. unfold cleanup_entry, sweep_one.
  destruct (PyStr.endswith ".jpg" n); cbn [negb andb]; run.
  - destruct (f !! OsPath.join d n) as [[m content|m]|] eqn:E; cbn [old_file]; run.
    + destruct (Qltb m cutoff); run; [rewrite E; run|]; eexists _, _; reflexivity.
    + destruct (Qltb m cutoff); run; [rewrite E; run|]; eexists _, _; reflexivity.
    + eexists _, _; reflexivity.
  - eexists _, _; reflexivity.
Qed.

Lemma for_each_cleanup_spec (names : list string) :
  forall (cnt : Z) (st : St),
  exists cnt' tr,
    for_each (cleanup_entry d cutoff) names cnt st =
      (Ok cnt',
       {| self := self st;
          world := {| fs := fold_left (sweep_one d cutoff) names (fs (world st));
                      now := now (world st); trace := tr; threads := threads (world st) |} |}).
Proof.
  induction names as [|n names IH]; intros cnt st.
  - destruct st as [c [f t tr th]]. eexists _, _. reflexivity.
  - cbn [for_each fold_left]. unfold bind at 1.
    destruct (cleanup_entry_spec cnt n st) as (c1 & t1 & ->).
    destruct (IH c1 {| self := self st;
                       world := {| fs := sweep_one d cutoff (fs (world st)) n;
                                   now := now (world st); trace := t1;
                                   threads := threads (world st) |} |})
      as (c2 & t2 & ->).
    eexists _, _. reflexivity.
Qed.

(** What the rounds over [names] leave at a path [p]. *)
Lemma fold_sweep_lookup (names : list string) :
  forall (f : gmap string node) (p : string),
    fold_left (sweep_one d cutoff) names f !! p =
      match f !! p with
      | Some x =>
          if existsb (fun n => String.eqb (OsPath.join d n) p
                               && (PyStr.endswith ".jpg" n && old_file cutoff x)) names
          then None else Some x
      | None => None
      end.
Proof.
  induction names as [|n names IH]; intros f p; cbn [fold_left existsb].
  - destruct (f !! p); reflexivity.
  - rewrite IH. unfold sweep_one.
    destruct (String.eqb_spec (OsPath.join d n) p) as [->|Hne]; cbn [andb orb].
    + destruct (f !! p) as [x|] eqn:E.
      * destruct (PyStr.endswith ".jpg" n && old_file cutoff x); cbn [orb].
        -- rewrite lookup_delete_eq. reflexivity.
        -- rewrite E. reflexivity.
      * rewrite andb_false_r, E. reflexivity.
    + destruct (PyStr.endswith ".jpg" n
                && match f !! OsPath.join d n with
                   | Some x => old_file cutoff x
                   | None => false
                   end); [rewrite lookup_delete_ne by exact Hne|]; reflexivity.
Qed.

Hypothesis d_nonempty : d <> "".

(** Over the listing of [d], the rounds delete the expired files. *)
Lemma listdir_sweep_expired (f : gmap string node) (p : string) (x : node) :
  f !! p = Some x ->
  existsb (fun n => String.eqb (OsPath.join d n) p
                    && (PyStr.endswith ".jpg" n && old_file cutoff x)) (listdir d f)
  = expired d cutoff p x.
Proof.
  intros Hp. apply eq_true_iff_eq. rewrite existsb_exists. unfold expired. split.
  - intros (n & Hn & Hc). apply andb_true_iff in Hc as [Heq Hc].
    apply String.eqb_eq in Heq. apply list_elem_of_In, elem_of_listdir in Hn.
    destruct Hn as (p' & x' & _ & Hn).
    rewrite <- Heq, <- (entry_name_join _ _ _ d_nonempty Hn), Hn. exact Hc.
  - destruct (entry_name d p) as [n|] eqn:Hn; [|discriminate]. intros Hc.
    exists n. split.
    + apply list_elem_of_In, elem_of_listdir. exists p, x. auto.
    + rewrite <- (entry_name_join _ _ _ d_nonempty Hn), String.eqb_refl. exact Hc.
Qed.

End Sweep.

(** The sweep as a whole, on an existing cache directory. *)
Lemma cleanup_old_images_spec (st : St) (d : string) (m : Q) :
  truthy_dir (img_dir (self st)) = Some d ->
  fs (world st) !! d = Some (Dir m) ->
  fst (cleanup_old_images st) = Ok tt /\
  self (snd (cleanup_old_images st)) = self st /\
  forall p,
    fs (world (snd (cleanup_old_images st))) !! p =
      match fs (world st) !! p with
      | Some x =>
          if expired d (cutoff_time (now (world st)) (img_cache_days (self st))) p x
          then None else Some x
      | None => None
      end.
Proof.
  intros Hon Hd. destruct (truthy_dir_nonempty _ _ Hon) as [_ Hne].
  unfold cleanup_old_images. run. rewrite Hon. run. rewrite Hd. cbn [negb]. run.
  rewrite Hd. run.
  match goal with |- context [for_each ?b ?l ?c ?s] =>
    destruct (for_each_cleanup_spec d (cutoff_time (now (world st)) (img_cache_days (self st)))
                l c s) as (cnt & tr & ->)
  end.
  run. destruct (0 <? cnt); run; (split; [reflexivity|]); (split; [reflexivity|]);
    intros p; rewrite fold_sweep_lookup;
    (destruct (fs (world st) !! p) as [x|] eqn:E; [|reflexivity]);
    rewrite (listdir_sweep_expired d _ Hne _ _ _ E); reflexivity.
Qed.

(** C2. On an existing cache directory [d], [cleanup_old_images] deletes
    exactly the expired files: what is left at any path is what was there,
    unless it was a regular file of [d] named [*.jpg] with a last-modified
    time before [now - img_cache_days * 86400]. In particular, for a
    regular file [name] of [d]: a [*.jpg] older than the cutoff is deleted,
    a [*.jpg] not older than the cutoff is kept, and a file of another
    name is kept whatever its age. *)
Theorem cleanup_old_images_sweeps (st : St) (d : string) (m : Q) :
  truthy_dir (img_dir (self st)) = Some d ->
  fs (world st) !! d = Some (Dir m) ->
  let cutoff := (now (world st) - inject_Z (img_cache_days (self st)) * inject_Z 86400)%Q in
  let after := fs (world (snd (cleanup_old_images st))) in
  (forall p,
     after !! p =
       match fs (world st) !! p with
       | Some x => if expired d cutoff p x then None else Some x
       | None => None
       end) /\
  (forall name mtime content,
     name <> "" -> PyStr.contains "/" name = false ->
     fs (world st) !! OsPath.join d name = Some (File mtime content) ->
     (PyStr.endswith ".jpg" name = true -> (mtime < cutoff)%Q ->
      after !! OsPath.join d name = None) /\
     (PyStr.endswith ".jpg" name = true -> (cutoff <= mtime)%Q ->
      after !! OsPath.join d name = Some (File mtime content)) /\
     (PyStr.endswith ".jpg" name = false ->
      after !! OsPath.join d name = Some (File mtime content))).
Proof.
  intros Hon Hd cutoff after.
  destruct (cleanup_old_images_spec st d m Hon Hd) as (_ & _ & Hfs).
  destruct (truthy_dir_nonempty _ _ Hon) as [_ Hne].
  split; [exact Hfs|].
  intros name mtime content Hname Hplain Hfile. unfold after.
  rewrite Hfs, Hfile. unfold expired.
  rewrite (join_entry_name _ _ Hne Hname Hplain). cbn [old_file].
  split; [|split].
  - intros -> Hold. apply Qltb_lt in Hold.
    unfold cutoff_time, Qminus. unfold cutoff, Qminus in Hold. rewrite Hold. reflexivity.
  - intros -> Hnew. apply Qltb_ge in Hnew.
    unfold cutoff_time, Qminus. unfold cutoff, Qminus in Hnew. rewrite Hnew. reflexivity.
  - intros ->. reflexivity.
Qed.

Lemma cleanup_old_images_sweeps_witness :
  let after := fs (world (snd (cleanup_old_images swept_st))) in
  after !! "/config/www/emby_images/old.jpg" = None /\
  after !! "/config/www/emby_images/new.jpg" = Some (File (inject_Z (35 * day)) [3]) /\
  after !! "/config/www/emby_images/old.txt" = Some (File 0 []).
Proof.
  destruct (cleanup_old_images_sweeps swept_st "/config/www/emby_images" 0 eq_refl eq_refl)
    as [_ H].
  split; [|split].
  - exact (proj1 (H "old.jpg" 0%Q [1; 2] ltac:(discriminate) eq_refl eq_refl)
             eq_refl eq_refl).
  - exact (proj1 (proj2 (H "new.jpg" (inject_Z (35 * day)) [3] ltac:(discriminate)
                           eq_refl eq_refl))
             eq_refl ltac:(vm_compute; discriminate)).
  - exact (proj2 (proj2 (H "old.txt" 0%Q [] ltac:(discriminate) eq_refl eq_refl)) eq_refl).
Defined.

(** The sweep at construction: a file forty days old does not survive
    [EmbyClient(...)] with thirty days of retention. *)
Example construct_sweeps :
  let r := construct "emby.lan" "KEY" false "8096" 2 "u1" true
             (Some "/config/www/emby_images") 30 swept_world in
  fst r = Ok tt /\
  fs (world (snd r)) !! "/config/www/emby_images/old.jpg" = None /\
  fs (world (snd r)) !! "/config/www/emby_images/new.jpg" = Some (File (inject_Z (35 * day)) [3]).
Proof. vm_compute. auto. Qed.

(* ===================================================================== *)
(** ** A download *)
(* ===================================================================== *)

Lemma http_gets_app (a b : list event) : http_gets (a ++ b)%list = (http_gets a + http_gets b)%nat.
Proof. unfold http_gets. now rewrite List.filter_app, List.length_app. Qed.

Section WriteLoop.

Variable env : download_env.
Variable p : string.

(** The loop of writes sends no request and appends to the open file at
    [p] the chunks before the first fault; it raises exactly when there is
    a fault. *)
Lemma write_loop_content (stream : list stream_item) :
  forall (k : nat) (c : EmbyClient) (f : gmap string node) (t : Q) (tr : list event)
         (th : list (string * string)) (c0 : list Z),
  f !! p = Some (File t c0) ->
  exists o tr',
    for_each (write_chunk env p) stream k
      {| self := c; world := {| fs := f; now := t; trace := tr; threads := th |} |}
    = (o, {| self := c;
             world := {| fs := <[p := File t (c0 ++ written (write_error_at env) k stream)%list]> f;
                         now := t; trace := (tr ++ tr')%list; threads := th |} |}) /\
    http_gets tr' = 0%nat /\
    (if stream_fails (write_error_at env) k stream
     then exists e, o = Raised e else exists k', o = Ok k').
Proof.
  induction stream as [|item stream IH]; intros k c f t tr th c0 Hp.
  - exists (Ok k), []. cbn [for_each written stream_fails]. unfold ret.
    rewrite !app_nil_r, insert_id by exact Hp. eauto.
  - cbn [for_each written stream_fails]. unfold bind at 1.
    destruct item as [bytes|msg]; cbn [write_chunk].
    + run. destruct (decide (write_error_at env = Some k)) as [Hk|Hk]; run.
      * exists (Raised (OSError "No space left on device")), [EvWrite p bytes].
        rewrite app_nil_r, insert_id by exact Hp. eauto.
      * rewrite Hp. run.
        destruct (IH (S k) c (<[p := File t (c0 ++ bytes)%list]> f) t
                    (tr ++ [EvWrite p bytes])%list th (c0 ++ bytes)%list
                    ltac:(apply lookup_insert_eq))
          as (o & tr' & -> & Hq & Ho).
        exists o, (EvWrite p bytes :: tr').
        rewrite insert_insert_eq, <- !app_assoc. auto.
    + unfold raise. exists (Raised (OSError msg)), [].
      rewrite !app_nil_r, insert_id by exact Hp. eauto.
Qed.

End WriteLoop.

Lemma download_image_sync_spec (env : download_env) (url filename : string) (st : St) :
  exists ok f' tr',
    download_image_sync env url filename st =
      (Ok ok, {| self := self st;
                 world := {| fs := f'; now := now (world st);
                             trace := (trace (world st) ++ EvHttpGet url :: tr')%list;
                             threads := threads (world st) |} |}) /\
    http_gets tr' = 0%nat /\
    (ok = true -> exists p, opened env url filename st p) /\
    (ok = false -> exists tr0 lv msg,
       tr' = (tr0 ++ [EvLog lv msg])%list /\ (lv = WARNING \/ lv = ERROR)) /\
    (f' = fs (world st) \/ exists p, opened env url filename st p) /\
    (forall p, opened env url filename st p ->
       is_file (f' !! p) /\ forall q, q <> p -> f' !! q = fs (world st) !! q) /\
    (forall p stream, opened env url filename st p ->
       image_server env url = Response 200 stream ->
       f' = <[p := File (now (world st)) (written (write_error_at env) 0 stream)]>
              (fs (world st)) /\
       ok = negb (stream_fails (write_error_at env) 0 stream)).
Proof.
  destruct st as [c [f t tr th]]. unfold download_image_sync. run.
  destruct (image_server env url) as [msg|status stream] eqn:Hnet; run.
  { eexists false, f, [_]. split; [trace_eq|]. split; [reflexivity|]. split; [discriminate|].
    split; [intros _; exists [], ERROR; eexists; auto|].
    split; [left; reflexivity|]. split; not_opened Hnet. }
  destruct (Z.eqb_spec status 200) as [->|Hstatus]; run.
  2:{ eexists false, f, [_]. split; [trace_eq|]. split; [reflexivity|]. split; [discriminate|].
      split; [intros _; exists [], WARNING; eexists; auto|].
      split; [left; reflexivity|]. split; not_opened Hnet. }
  destruct (img_dir c) as [d|] eqn:Hdir; run.
  2:{ eexists false, f, [_]. split; [trace_eq|]. split; [reflexivity|]. split; [discriminate|].
      split; [intros _; exists [], ERROR; eexists; auto|].
      split; [left; reflexivity|]. split; not_opened Hnet. }
  destruct (open_error env) as [msg|] eqn:Hopen; run.
  { eexists false, f, [_; _]. split; [trace_eq|]. split; [reflexivity|]. split; [discriminate|].
    split; [intros _; exists [EvOpen (OsPath.join d filename)], ERROR; eexists; auto|].
    split; [left; reflexivity|]. split; not_opened Hnet. }
  remember (OsPath.join d filename) as p eqn:Hp.
  destruct (parent_dir_exists f p) eqn:Hparent; cbn [negb]; run.
  2:{ eexists false, f, [_; _]. split; [trace_eq|]. split; [reflexivity|]. split; [discriminate|].
      split; [intros _; exists [EvOpen p], ERROR; eexists; auto|].
      split; [left; reflexivity|].
      split;
        (first [ intros p' (s & d' & _ & H2 & H3 & _ & H5 & _)
               | intros p' ? (s & d' & _ & H2 & H3 & _ & H5 & _) ]);
        cbn [self world fs img_dir] in *; congruence. }
  destruct (f !! p) as [[m0 c0|m0]|] eqn:E; run.
  2:{ eexists false, f, [_; _]. split; [trace_eq|]. split; [reflexivity|]. split; [discriminate|].
      split; [intros _; exists [EvOpen p], ERROR; eexists; auto|].
      split; [left; reflexivity|].
      split;
        (first [ intros p' (s & d' & _ & H2 & H3 & _ & _ & H6)
               | intros p' ? (s & d' & _ & H2 & H3 & _ & _ & H6) ]);
        cbn [self world fs img_dir] in *; exfalso; apply H6;
        assert (p' = p) as -> by congruence; rewrite E; eexists; reflexivity. }
  all: match goal with
       | |- context [for_each ?b ?l ?k {| self := ?c0; world := {| fs := ?f0; now := ?t0;
                                           trace := ?tr0; threads := ?th0 |} |}] =>
           destruct (write_loop_content env p l k c0 f0 t0 tr0 th0 []
                       ltac:(apply lookup_insert_eq))
             as (o & tr' & -> & Hq & Ho)
       end.
  all: rewrite insert_insert_eq, app_nil_l.
  all: set (W := written (write_error_at env) 0 stream) in *.
  all: assert (Hopened : opened env url filename
                           {| self := c; world := {| fs := f; now := t; trace := tr;
                                                     threads := th |} |} p)
         by (exists stream, d; cbn [self world fs img_dir]; rewrite E;
             repeat split; auto; intros [? [=]]).
  all: assert (Hpost : forall p', opened env url filename
                           {| self := c; world := {| fs := f; now := t; trace := tr;
                                                     threads := th |} |} p' ->
                       is_file (<[p := File t W]> f !! p') /\
                       forall q, q <> p' -> <[p := File t W]> f !! q = f !! q)
         by (intros p' (s & d' & _ & H2 & H3 & _); cbn [self world fs img_dir] in *;
             assert (p' = p) as -> by congruence;
             split; [rewrite lookup_insert_eq; eexists _, _; reflexivity|];
             intros q Hne; rewrite lookup_insert_ne by congruence; reflexivity).
  all: assert (Hsame : forall p', opened env url filename
                           {| self := c; world := {| fs := f; now := t; trace := tr;
                                                     threads := th |} |} p' -> p' = p)
         by (intros p' (s & d' & _ & H2 & H3 & _); cbn [self world fs img_dir] in *;
             congruence).
  all: destruct (stream_fails (write_error_at env) 0 stream) eqn:Hfails;
       [destruct Ho as [e ->] | destruct Ho as [k' ->]]; run.
  2,4: rewrite !lookup_insert_eq; run; rewrite !lookup_insert_eq; run;
       eexists true, _, (EvOpen p :: tr' ++ [_; _; _])%list;
       (split; [rewrite <- ?app_assoc; reflexivity|]);
       (split; [change (http_gets (EvOpen p :: ?l)) with (http_gets l);
                rewrite http_gets_app, Hq; reflexivity|]);
       (split; [intros _; exists p; exact Hopened|]);
       (split; [discriminate|]);
       (split; [right; exists p; exact Hopened|]);
       (split; [exact Hpost|]);
       intros p' s' Hp' Hs'; injection Hs' as <-; rewrite (Hsame p' Hp');
       cbn [self world fs now]; rewrite Hfails; split; reflexivity.
  all: eexists false, _, (EvOpen p :: tr' ++ [_])%list;
       (split; [rewrite <- ?app_assoc; reflexivity|]);
       (split; [change (http_gets (EvOpen p :: ?l)) with (http_gets l);
                rewrite http_gets_app, Hq; reflexivity|]);
       (split; [discriminate|]);
       (split; [intros _; exists (EvOpen p :: tr'), ERROR; eexists; split; [reflexivity | auto]|]);
       (split; [right; exists p; exact Hopened|]);
       (split; [exact Hpost|]);
       intros p' s' Hp' Hs'; injection Hs' as <-; rewrite (Hsame p' Hp');
       cbn [self world fs now]; rewrite Hfails; split; reflexivity.
Qed.




(* ===================================================================== *)
(** ** Calls and downloads over time *)
(* ===================================================================== *)

(** What a call of [get_image_url] does to the state: it writes no file,
    and starts a download for the cache file of the pair exactly when that
    file is not there. *)
Lemma get_image_url_state (st : St) (itemId imageType : string) :
  let st' := snd (get_image_url itemId imageType st) in
  self st' = self st /\
  fs (world st') = fs (world st) /\
  match truthy_dir (img_dir (self st)) with
  | None => threads (world st') = threads (world st)
  | Some d =>
      threads (world st') =
        match fs (world st) !! cache_path d (itemId, imageType) with
        | Some _ => threads (world st)
        | None => (threads (world st)
                   ++ [(emby_url (self st) itemId imageType,
                        cache_filename itemId imageType)])%list
        end
  end.
Proof.
  unfold get_image_url, cache_path. run.
  destruct (truthy_dir (img_dir (self st))) as [d|]; run; [|auto].
  cbn [fst snd].
  destruct (fs (world st) !! OsPath.join d (cache_filename itemId imageType));
    cbn [negb]; run; destruct (PyStr.contains "/www/" d); run; auto.
Qed.

Lemma elem_of_remove_nth {A} (k : nat) (l : list A) (x : A) :
  x ∈ remove_nth k l -> x ∈ l.
Proof.
  revert k. induction l as [|a l IH]; intros k; unfold remove_nth.
  - destruct k; simpl; auto.
  - destruct k as [|k]; simpl.
    + intros H. apply elem_of_cons. right. exact H.
    + rewrite !elem_of_cons. intros [H|H]; [left; exact H | right; exact (IH k H)].
Qed.

Lemma size_list_to_set_le (l : list string) :
  (size (list_to_set l : gset string) <= List.length l)%nat.
Proof.
  induction l as [|a l IH].
  - rewrite list_to_set_nil, size_empty. reflexivity.
  - rewrite list_to_set_cons, size_union_alt, size_singleton. cbn [List.length].
    assert (Hsub : (list_to_set l : gset string) ∖ {[a]} ⊆ list_to_set l).
    { intros x Hx. apply elem_of_difference in Hx as [Hx _]. exact Hx. }
    apply subseteq_size in Hsub. lia.
Qed.

Lemma size_set_map_le (f : string * string -> string) (X : gset (string * string)) :
  (size (set_map f X : gset string) <= size X)%nat.
Proof.
  unfold set_map. etransitivity; [apply size_list_to_set_le|].
  rewrite length_fmap. reflexivity.
Qed.

(** Along a history, the client object stays, every pending download is
    for the cache file of a pair asked for, and every path that differs
    from the start is the cache path of such a pair. *)
Lemma runs_invariant (st0 : St) (ps : list (string * string)) (st : St) :
  threads (world st0) = [] ->
  runs st0 ps st ->
  self st = self st0 /\
  (forall url filename, (url, filename) ∈ threads (world st) ->
     exists d pair, truthy_dir (img_dir (self st0)) = Some d /\ pair ∈ ps /\
                    filename = cache_filename (fst pair) (snd pair)) /\
  (forall p, fs (world st) !! p <> fs (world st0) !! p ->
     exists d pair, truthy_dir (img_dir (self st0)) = Some d /\ pair ∈ ps /\
                    p = cache_path d pair).
Proof.
  intros Hstart Hruns. induction Hruns as [|ps st i t _ IH|ps st k url filename env _ IH Hk|ps st t _ IH].
  - split; [reflexivity|]. split.
    + intros url filename H. rewrite Hstart in H. apply elem_of_nil in H. contradiction.
    + intros p H. contradiction.
  - destruct IH as (Hself & Hth & Hfs).
    destruct (get_image_url_state st i t) as (Hself' & Hfs' & Hth').
    split; [congruence|]. split.
    + intros url filename H.
      assert (Hcase : (url, filename) ∈ threads (world st) \/
                      (filename = cache_filename i t /\
                       exists d, truthy_dir (img_dir (self st0)) = Some d)).
      { rewrite <- Hself.
        destruct (truthy_dir (img_dir (self st))) as [d|]; [|left; congruence].
        destruct (fs (world st) !! cache_path d (i, t)); [left; congruence|].
        rewrite Hth' in H. apply elem_of_app in H as [H|H]; [left; exact H|].
        apply list_elem_of_singleton in H. right. split; [congruence | eauto]. }
      destruct Hcase as [Hin|[-> [d Hd]]].
      * destruct (Hth _ _ Hin) as (d & pair & Hd & Hp & ->). exists d, pair.
        split; [exact Hd|]. split; [apply elem_of_app; left; exact Hp | reflexivity].
      * exists d, (i, t). split; [exact Hd|].
        split; [apply elem_of_app; right; apply list_elem_of_singleton; reflexivity|].
        reflexivity.
    + intros p H. rewrite Hfs' in H. destruct (Hfs p H) as (d & pair & Hd & Hp & ->).
      exists d, pair. split; [exact Hd|]. split; [apply elem_of_app; left; exact Hp | reflexivity].
  - destruct IH as (Hself & Hth & Hfs).
    destruct (download_image_sync_spec env url filename (drop_thread k st))
      as (ok & f' & tr' & Hrun & _ & _ & _ & Hsame & Hopened & _).
    rewrite Hrun. cbn [snd self world fs threads drop_thread] in *.
    split; [exact Hself|]. split.
    + intros url' filename' H. apply elem_of_remove_nth in H. exact (Hth _ _ H).
    + intros p H. destruct Hsame as [->|[p0 Hp0]]; [exact (Hfs p H)|].
      destruct (Hopened p0 Hp0) as [_ Hframe].
      destruct (decide (p = p0)) as [->|Hne].
      * destruct Hp0 as (stream & d & _ & Hd & Hp0 & _). cbn [self drop_thread] in Hd.
        destruct (Hth url filename (list_elem_of_lookup_2 _ _ _ Hk))
          as (d' & pair & Hd' & Hp & Hname).
        rewrite Hself in Hd. destruct (truthy_dir_nonempty _ _ Hd') as [Hd'' _].
        assert (d' = d) as -> by congruence.
        exists d, pair. split; [exact Hd'|].
        split; [exact Hp|]. unfold cache_path. rewrite <- Hname. exact Hp0.
      * rewrite (Hframe p Hne) in H. exact (Hfs p H).
  - destruct IH as (Hself & Hth & Hfs). cbn [tick self world fs threads]. auto.
Qed.

(** C7. With a cache directory, [get_image_url] writes no file itself and
    starts a download exactly when the cache file of the pair is not
    there: for the cache file name of the pair, and only then. And along
    any history from a state without pending downloads, of calls for the
    pairs [ps] and of downloads running to their end, every file that
    exists and did not at the start is the cache file of a pair asked
    for, a path that the pair alone determines: the files created are at
    most as many as the distinct pairs, one per pair at most. *)
Theorem one_cache_file_per_pair :
  (forall (st : St) (itemId imageType d : string),
     truthy_dir (img_dir (self st)) = Some d ->
     let st' := snd (get_image_url itemId imageType st) in
     let p := OsPath.join d (cache_filename itemId imageType) in
     fs (world st') = fs (world st) /\
     (fs (world st) !! p <> None -> threads (world st') = threads (world st)) /\
     (fs (world st) !! p = None ->
      threads (world st') =
        (threads (world st)
         ++ [(emby_url (self st) itemId imageType, cache_filename itemId imageType)])%list)) /\
  (forall (st0 : St) (ps : list (string * string)) (st : St),
     threads (world st0) = [] ->
     runs st0 ps st ->
     let created : gset string := dom (fs (world st)) ∖ dom (fs (world st0)) in
     (forall p, p ∈ created ->
        exists d pair,
          truthy_dir (img_dir (self st0)) = Some d /\ pair ∈ ps /\
          p = OsPath.join d (cache_filename (fst pair) (snd pair))) /\
     (size created <= size (list_to_set ps : gset (string * string)))%nat).
Proof.
  split.
  - intros st itemId imageType d Hon st' p.
    destruct (get_image_url_state st itemId imageType) as (_ & Hfs & Hth).
    rewrite Hon in Hth. unfold cache_path in Hth. cbn [fst snd] in Hth. fold p in Hth.
    split; [exact Hfs|]. split.
    + intros Hp. destruct (fs (world st) !! p); [exact Hth | contradiction].
    + intros Hp. rewrite Hp in Hth. exact Hth.
  - intros st0 ps st Hstart Hruns created.
    destruct (runs_invariant st0 ps st Hstart Hruns) as (_ & _ & Hfs).
    assert (Hcreated : forall p, p ∈ created ->
              exists d pair, truthy_dir (img_dir (self st0)) = Some d /\ pair ∈ ps /\
                             p = cache_path d pair).
    { intros p Hp. apply elem_of_difference in Hp as [Hin Hout].
      apply elem_of_dom in Hin as [x Hx]. apply not_elem_of_dom in Hout.
      apply Hfs. congruence. }
    split; [exact Hcreated|].
    destruct (truthy_dir (img_dir (self st0))) as [d|] eqn:Hd.
    + etransitivity; [|apply (size_set_map_le (cache_path d))].
      apply subseteq_size. intros p Hp.
      destruct (Hcreated p Hp) as (d' & pair & [= <-] & Hin & ->).
      apply elem_of_map. exists pair. split; [reflexivity|].
      apply elem_of_list_to_set. exact Hin.
    + assert (Hnone : created ⊆ ∅).
      { intros p Hp. destruct (Hcreated p Hp) as (d' & pair & [=] & _). }
      apply subseteq_size in Hnone. rewrite size_empty in Hnone. lia.
Qed.

Lemma one_cache_file_per_pair_witness :
  let url := "http://emby.lan:8096/Items/42/Images/Primary?maxHeight=360&maxWidth=640&quality=90&api_key=KEY" in
  let name := "42_Primary_7ab37ce5.jpg" in
  let st2 := snd (get_image_url "42" "Primary" (snd (get_image_url "42" "Primary" demo_st))) in
  let st3 := snd (download_image_sync env_ok url name (drop_thread 0 st2)) in
  let st4 := snd (download_image_sync env_reset url name (drop_thread 0 st3)) in
  threads (world st2) = [(url, name); (url, name)] /\
  (size (dom (fs (world st4)) ∖ dom (fs (world demo_st))) <= 1)%nat.
Proof.
  intros url name st2 st3 st4. split; [reflexivity|].
  assert (Hruns : runs demo_st ([] ++ [("42", "Primary")] ++ [("42", "Primary")]) st4).
  { rewrite app_assoc.
    apply (runs_download demo_st _ st3 0 url name env_reset); [|reflexivity].
    apply (runs_download demo_st _ st2 0 url name env_ok); [|reflexivity].
    apply runs_call, runs_call, runs_start. }
  exact (proj2 (proj2 one_cache_file_per_pair demo_st _ st4 eq_refl Hruns)).
Defined.

(* ===================================================================== *)
(** ** More on the metadata calls *)
(* ===================================================================== *)

(** X1. On status 200 with an object that has ["Items"],
    [get_view_categories] returns the items and stores them under
    ["ViewCategories"], replacing what was there; the other snapshots stay,
    [_state] is not touched (it is not set to ["Online"]), the files and
    the pending downloads stay, and one request was sent. *)
Theorem get_view_categories_success (server : api_server) (st : St)
    (fields : list (string * pyval)) (items : pyval) :
  server (views_url (self st)) = Response 200 (Some (PDict fields)) ->
  dict_get "Items" fields = Some items ->
  let r := get_view_categories server st in
  fst r = Ok items /\
  data (self (snd r)) = <["ViewCategories" := items]> (data (self st)) /\
  _state (self (snd r)) = _state (self st) /\
  fs (world (snd r)) = fs (world st) /\
  threads (world (snd r)) = threads (world st) /\
  trace (world (snd r)) = (trace (world st) ++ [EvHttpGet (views_url (self st))])%list.
Proof.
  intros Hnet Hitems. unfold get_view_categories. run. rewrite Hnet. run.
  rewrite Z.eqb_refl. run. unfold subscript. rewrite Hitems. run.
  rewrite lookup_insert_eq. run. auto 10.
Qed.

Lemma get_view_categories_success_witness :
  fst (get_view_categories server_views demo_st) = Ok (PList [PStr "Movies"; PStr "Shows"]) /\
  data (self (snd (get_view_categories server_views demo_st))) !! "ViewCategories"
    = Some (PList [PStr "Movies"; PStr "Shows"]).
Proof.
  destruct (get_view_categories_success server_views demo_st _ _ eq_refl eq_refl)
    as (H1 & H2 & _).
  split; [exact H1|]. rewrite H2. apply lookup_insert_eq.
Defined.

(** X2. On status 200 with an object without ["Items"],
    [get_view_categories] raises [KeyError] for that key and stores
    nothing. *)
Theorem get_view_categories_missing_items (server : api_server) (st : St)
    (fields : list (string * pyval)) :
  server (views_url (self st)) = Response 200 (Some (PDict fields)) ->
  dict_get "Items" fields = None ->
  let r := get_view_categories server st in
  fst r = Raised (KeyError "Items") /\
  self (snd r) = self st.
Proof.
  intros Hnet Hitems. unfold get_view_categories. run. rewrite Hnet. run.
  rewrite Z.eqb_refl. run. unfold subscript. rewrite Hitems. run. auto.
Qed.

Lemma get_view_categories_missing_items_witness :
  fst (get_view_categories server_no_items demo_st) = Raised (KeyError "Items") /\
  self (snd (get_view_categories server_no_items demo_st)) = self demo_st.
Proof.
  exact (get_view_categories_missing_items server_no_items demo_st _ eq_refl eq_refl).
Defined.

(** X3. When the request fails in the network, [get_view_categories]
    raises nothing and returns [None]; it records ["<host> cannot be
    reached"], logs one warning after its one request, and leaves the
    snapshots, the files and the pending downloads as they were. *)
Theorem get_view_categories_unreachable (server : api_server) (st : St) (msg : string) :
  server (views_url (self st)) = ConnectionError msg ->
  let r := get_view_categories server st in
  fst r = Ok PNone /\
  _state (self (snd r)) = Some (host (self st) ++ " cannot be reached") /\
  data (self (snd r)) = data (self st) /\
  fs (world (snd r)) = fs (world st) /\
  threads (world (snd r)) = threads (world st) /\
  trace (world (snd r)) =
    (trace (world st)
     ++ [EvHttpGet (views_url (self st));
         EvLog WARNING ("Host " ++ host (self st) ++ " is not available")])%list.
Proof.
  intros Hnet. unfold get_view_categories. run. rewrite Hnet. run.
  rewrite <- app_assoc. auto 10.
Qed.

Lemma get_view_categories_unreachable_witness :
  fst (get_view_categories server_down demo_st) = Ok PNone /\
  _state (self (snd (get_view_categories server_down demo_st)))
    = Some "emby.lan cannot be reached".
Proof.
  destruct (get_view_categories_unreachable server_down demo_st _ eq_refl) as (H1 & H2 & _).
  split; [exact H1 | exact H2].
Defined.

(** X4. When the request fails in the network, [get_data] raises nothing
    and returns [None]; it records ["<host> cannot be reached"], logs one
    warning after its one request, and leaves the snapshots, the files and
    the pending downloads as they were. *)
Theorem get_data_unreachable (server : api_server) (st : St) (categoryId msg : string) :
  server (latest_url (self st) categoryId) = ConnectionError msg ->
  let r := get_data server categoryId st in
  fst r = Ok PNone /\
  _state (self (snd r)) = Some (host (self st) ++ " cannot be reached") /\
  data (self (snd r)) = data (self st) /\
  fs (world (snd r)) = fs (world st) /\
  threads (world (snd r)) = threads (world st) /\
  trace (world (snd r)) =
    (trace (world st)
     ++ [EvHttpGet (latest_url (self st) categoryId);
         EvLog WARNING ("Host " ++ host (self st) ++ " is not available")])%list.
Proof.
  intros Hnet. unfold get_data. run. rewrite Hnet. run.
  rewrite <- app_assoc. auto 10.
Qed.

Lemma get_data_unreachable_witness :
  fst (get_data server_down "7" demo_st) = Ok PNone /\
  _state (self (snd (get_data server_down "7" demo_st))) = Some "emby.lan cannot be reached".
Proof.
  destruct (get_data_unreachable server_down demo_st "7" _ eq_refl) as (H1 & H2 & _).
  split; [exact H1 | exact H2].
Defined.

(** The whole effect of [get_data] on status 200 with a list. *)
Lemma get_data_200_list (server : api_server) (st : St) (categoryId : string)
    (items : list pyval) :
  server (latest_url (self st) categoryId) = Response 200 (Some (PList items)) ->
  get_data server categoryId st =
    (Ok (PList (PyStr.slice_to (max_items (self st)) items)),
     {| self := with_data (<[categoryId := PList (PyStr.slice_to (max_items (self st)) items)]>
                             (data (self st)))
                  (with_state "Online" (self st));
        world := with_event (EvHttpGet (latest_url (self st) categoryId)) (world st) |}).
Proof.
  intros Hnet. unfold get_data. run. rewrite Hnet. run.
  rewrite Z.eqb_refl. run. unfold slice_upto. run. rewrite lookup_insert_eq. reflexivity.
Qed.

(** X5. On status 200 with a list, [get_data] sets [_state] to ["Online"],
    stores under the category what it returns, the list cut by
    [[:max_items]], in place of any earlier snapshot, and leaves the
    snapshots of the other keys. *)
Theorem get_data_stores_snapshot (server : api_server) (st : St) (categoryId : string)
    (items : list pyval) :
  server (latest_url (self st) categoryId) = Response 200 (Some (PList items)) ->
  let r := get_data server categoryId st in
  let snapshot := PList (PyStr.slice_to (max_items (self st)) items) in
  fst r = Ok snapshot /\
  data (self (snd r)) !! categoryId = Some snapshot /\
  (forall key, key <> categoryId -> data (self (snd r)) !! key = data (self st) !! key) /\
  _state (self (snd r)) = Some "Online".
Proof.
  intros Hnet. cbv zeta. rewrite (get_data_200_list _ _ _ _ Hnet). run.
  split; [reflexivity|]. split; [apply lookup_insert_eq|]. split; [|reflexivity].
  intros key Hne. apply lookup_insert_ne. congruence.
Qed.

Lemma get_data_stores_snapshot_witness :
  fst (get_data server_3 "7" stale_st) = Ok (PList [PStr "a"; PStr "b"]) /\
  data (self (snd (get_data server_3 "7" stale_st))) !! "7" = Some (PList [PStr "a"; PStr "b"]) /\
  data (self (snd (get_data server_3 "7" stale_st))) !! "ViewCategories"
    = Some (PList [PStr "Movies"]).
Proof.
  destruct (get_data_stores_snapshot server_3 stale_st "7" _ eq_refl) as (H1 & H2 & H3 & _).
  split; [exact H1|]. split; [exact H2|].
  rewrite (H3 "ViewCategories" ltac:(discriminate)). reflexivity.
Defined.

(** X6. With a negative [max_items], [[:max_items]] drops that many items
    from the end instead of bounding the list: [get_data] returns all but
    the last [-max_items] items. *)
Theorem get_data_negative_bound (server : api_server) (st : St) (categoryId : string)
    (items : list pyval) :
  server (latest_url (self st) categoryId) = Response 200 (Some (PList items)) ->
  max_items (self st) < 0 ->
  fst (get_data server categoryId st) =
    Ok (PList (firstn (List.length items - Z.to_nat (- max_items (self st))) items)).
Proof.
  intros Hnet Hneg.
  rewrite (get_data_200_list _ _ _ _ Hnet). cbn [fst].
  unfold PyStr.slice_to. destruct (Z.leb_spec 0 (max_items (self st))) as [|_]; [lia|].
  do 3 f_equal. lia.
Qed.

Lemma get_data_negative_bound_witness :
  fst (get_data server_3 "7" negative_st) = Ok (PList [PStr "a"; PStr "b"]).
Proof.
  exact (get_data_negative_bound server_3 negative_st "7" [PStr "a"; PStr "b"; PStr "c"]
           eq_refl eq_refl).
Defined.

(** X7. Whatever the server does, [get_data] sends one request, to the
    address of the category's latest items, and none after it; it changes
    no snapshot but the one of its category, no file, no pending download
    and not the clock. *)
Theorem get_data_frame (server : api_server) (st : St) (categoryId : string) :
  let r := get_data server categoryId st in
  (forall key, key <> categoryId -> data (self (snd r)) !! key = data (self st) !! key) /\
  fs (world (snd r)) = fs (world st) /\
  threads (world (snd r)) = threads (world st) /\
  now (world (snd r)) = now (world st) /\
  exists tr,
    trace (world (snd r)) =
      (trace (world st) ++ EvHttpGet (latest_url (self st) categoryId) :: tr)%list /\
    http_gets tr = 0%nat.
Proof.
  assert (Hins : forall v key, key <> categoryId ->
            <[categoryId := v]> (data (self st)) !! key = data (self st) !! key).
  { intros v key Hne. apply lookup_insert_ne. congruence. }
  unfold get_data. run.
  destruct (server (latest_url (self st) categoryId)) as [msg|status body]; run.
  { repeat split; try reflexivity. eexists. split; [trace_eq | reflexivity]. }
  destruct (status =? 200); run.
  2:{ repeat split; try reflexivity. eexists. split; [trace_eq | reflexivity]. }
  destruct body as [j|]; run.
  2:{ repeat split; try reflexivity. eexists. split; [trace_eq | reflexivity]. }
  unfold slice_upto.
  destruct j; run; rewrite ?lookup_insert_eq; run;
    (repeat split; try reflexivity; [intros key Hne; apply Hins, Hne|..];
     eexists; (split; [trace_eq | reflexivity])) ||
    (repeat split; try reflexivity; eexists; (split; [trace_eq | reflexivity])).
Qed.

(** X8. Whatever the server does, [get_view_categories] sends one
    request, to the address of the views, and none after it; it changes no
    snapshot but ["ViewCategories"], no file, no pending download and not
    the clock. *)
Theorem get_view_categories_frame (server : api_server) (st : St) :
  let r := get_view_categories server st in
  (forall key, key <> "ViewCategories" ->
     data (self (snd r)) !! key = data (self st) !! key) /\
  fs (world (snd r)) = fs (world st) /\
  threads (world (snd r)) = threads (world st) /\
  now (world (snd r)) = now (world st) /\
  exists tr,
    trace (world (snd r)) = (trace (world st) ++ EvHttpGet (views_url (self st)) :: tr)%list /\
    http_gets tr = 0%nat.
Proof.
  assert (Hins : forall v key, key <> "ViewCategories" ->
            <["ViewCategories" := v]> (data (self st)) !! key = data (self st) !! key).
  { intros v key Hne. apply lookup_insert_ne. congruence. }
  unfold get_view_categories. run.
  destruct (server (views_url (self st))) as [msg|status body]; run.
  { repeat split; try reflexivity. eexists. split; [trace_eq | reflexivity]. }
  destruct (status =? 200); run.
  2:{ destruct (data (self st) !! "ViewCategories"); run;
        repeat split; try reflexivity; eexists; (split; [trace_eq | reflexivity]). }
  destruct body as [j|]; run.
  2:{ repeat split; try reflexivity. eexists. split; [trace_eq | reflexivity]. }
  unfold subscript.
  destruct j as [| | | | | |fields]; run;
    try (repeat split; try reflexivity; eexists; (split; [trace_eq | reflexivity])).
  destruct (dict_get "Items" fields) as [items|]; run; rewrite ?lookup_insert_eq; run.
  - repeat split; try reflexivity; [intros key Hne; apply Hins, Hne|].
    eexists. split; [trace_eq | reflexivity].
  - repeat split; try reflexivity. eexists. split; [trace_eq | reflexivity].
Qed.

(** X9. On status 200 with a body that is not JSON, [get_data] raises
    (the exception of [response.json()] is not caught); [_state] is
    already ["Online"] by then, and no snapshot changes. *)
Theorem get_data_body_not_json (server : api_server) (st : St) (categoryId : string) :
  server (latest_url (self st) categoryId) = Response 200 None ->
  let r := get_data server categoryId st in
  (exists e, fst r = Raised e) /\
  _state (self (snd r)) = Some "Online" /\
  data (self (snd r)) = data (self st).
Proof.
  intros Hnet. unfold get_data. run. rewrite Hnet. run. rewrite Z.eqb_refl. run.
  split; [eexists; reflexivity | auto].
Qed.

Lemma get_data_body_not_json_witness :
  (exists e, fst (get_data server_html "7" stale_st) = Raised e) /\
  _state (self (snd (get_data server_html "7" stale_st))) = Some "Online" /\
  data (self (snd (get_data server_html "7" stale_st))) = data (self stale_st).
Proof.
  exact (get_data_body_not_json server_html stale_st "7" eq_refl).
Defined.

(* ===================================================================== *)
(** ** More on the address of an image *)
(* ===================================================================== *)

Section MoreStringFacts.

Import PyStr.

Lemma split_from_last_some (sep : string) :
  sep <> "" -> forall s cur, exists post, last_item (split_from sep O cur s) = Some post.
Proof.
  intros Hsep s cur. destruct (contains sep s) eqn:Hin.
  - destruct (split_last sep Hsep (String.length s) s cur (Nat.le_refl _) Hin)
      as (pre & post & _ & _ & H). exists post. exact H.
  - rewrite (split_no_sep sep s cur Hin). eexists. reflexivity.
Qed.

Lemma endswith_app (suf a : string) : endswith suf (a ++ suf) = true.
Proof.
  induction a as [|x a IH].
  - rewrite str_app_nil. destruct suf as [|y suf]; [reflexivity|].
    cbn [endswith]. rewrite String.eqb_refl. reflexivity.
  - rewrite str_app_cons. cbn [endswith]. rewrite IH. apply orb_true_r.
Qed.

Lemma contains_char_app (c : ascii) (a b : string) :
  contains (String c "") (a ++ b) = contains (String c "") a || contains (String c "") b.
Proof.
  induction a as [|x a IH].
  - rewrite str_app_nil. reflexivity.
  - rewrite str_app_cons. cbn [contains startswith]. rewrite IH.
    destruct (Ascii.eqb c x); reflexivity.
Qed.

Lemma all_hex_no_slash (s : string) : all_hex s = true -> contains "/" s = false.
Proof.
  induction s as [|c s IH]; [reflexivity|].
  cbn [all_hex contains startswith]. intros H. apply andb_true_iff in H as [Hc Hs].
  rewrite (IH Hs). destruct (Ascii.eqb_spec "/" c) as [<-|]; [discriminate Hc | reflexivity].
Qed.

End MoreStringFacts.

(** The name of a cache file ends in [.jpg], is not empty, and has a
    separator only if the pair has one. *)
Lemma cache_filename_shape (itemId imageType : string) :
  PyStr.endswith ".jpg" (cache_filename itemId imageType) = true /\
  cache_filename itemId imageType <> "" /\
  (PyStr.contains "/" itemId = false -> PyStr.contains "/" imageType = false ->
   PyStr.contains "/" (cache_filename itemId imageType) = false).
Proof.
  unfold cache_filename.
  destruct (hexdigest_first8 (itemId ++ "_" ++ imageType)) as [w ->].
  split; [|split].
  - rewrite <- !str_app_assoc. apply endswith_app.
  - intros H. apply (f_equal String.length) in H. rewrite !str_app_length in H.
    simpl in H. lia.
  - intros Hi Ht. rewrite !contains_char_app, Hi, Ht.
    rewrite (all_hex_no_slash _ (hex_word_all_hex w)). reflexivity.
Qed.



(** X11. [get_image_url] itself sends no request and changes no file, the
    client object and the clock stay: it adds at most three events to the
    trace (the look-up of the cache file, the start of a download, a
    warning), none of them a request. *)
Theorem get_image_url_does_not_fetch (st : St) (itemId imageType : string) :
  let st' := snd (get_image_url itemId imageType st) in
  self st' = self st /\
  fs (world st') = fs (world st) /\
  now (world st') = now (world st) /\
  exists tr,
    trace (world st') = (trace (world st) ++ tr)%list /\
    http_gets tr = 0%nat /\ (List.length tr <= 3)%nat.
Proof.
  unfold get_image_url. run.
  destruct (truthy_dir (img_dir (self st))) as [d|]; run.
  2:{ repeat split. exists []. rewrite app_nil_r. repeat split. simpl. lia. }
  destruct (_ !! OsPath.join d (cache_filename itemId imageType)); cbn [negb]; run;
    destruct (PyStr.contains "/www/" d); run;
    (repeat split; eexists; split; [trace_eq | split; [reflexivity | simpl; lia]]).
Qed.

(** X12. What [get_image_url] returns depends on the client and the pair
    only, not on the files: the address is the same whether the image is
    cached, being fetched or absent. *)
Theorem get_image_url_result_ignores_world (c : EmbyClient) (w1 w2 : World)
    (itemId imageType : string) :
  fst (get_image_url itemId imageType {| self := c; world := w1 |}) =
  fst (get_image_url itemId imageType {| self := c; world := w2 |}).
Proof.
  unfold get_image_url. run.
  destruct (truthy_dir (img_dir c)) as [d|]; run; [|reflexivity].
  destruct (fs w1 !! OsPath.join d (cache_filename itemId imageType));
    destruct (fs w2 !! OsPath.join d (cache_filename itemId imageType));
    cbn [negb]; run; destruct (PyStr.contains "/www/" d); run; reflexivity.
Qed.

(** X13. The name of the cache file is computed from the joined text
    [{itemId}_{imageType}] alone, so the pairs [(a_b, c)] and [(a, b_c)]
    share one cache file: once the image of the first is cached, a call
    for the second starts no download. *)
Theorem cache_file_shared_by_pairs (a b c : string) :
  cache_filename (a ++ "_" ++ b) c = cache_filename a (b ++ "_" ++ c) /\
  forall (st : St) (d : string),
    truthy_dir (img_dir (self st)) = Some d ->
    fs (world st) !! cache_path d (a ++ "_" ++ b, c) <> None ->
    threads (world (snd (get_image_url a (b ++ "_" ++ c) st))) = threads (world st).
Proof.
  assert (Hname : cache_filename (a ++ "_" ++ b) c = cache_filename a (b ++ "_" ++ c)).
  { unfold cache_filename. rewrite !str_app_assoc. reflexivity. }
  split; [exact Hname|].
  intros st d Hon Hcached.
  destruct (get_image_url_state st a (b ++ "_" ++ c)) as (_ & _ & Hth).
  rewrite Hon in Hth. unfold cache_path in *. cbn [fst snd] in *. rewrite <- Hname in Hth.
  destruct (fs (world st) !! OsPath.join d (cache_filename (a ++ "_" ++ b) c));
    [exact Hth | contradiction].
Qed.

Lemma cache_file_shared_by_pairs_witness :
  threads (world (snd (get_image_url "1" ("2" ++ "_" ++ "Primary") cached_st))) = [].
Proof.
  exact (proj2 (cache_file_shared_by_pairs "1" "2" "Primary") cached_st
           "/config/www/emby_images" eq_refl ltac:(vm_compute; discriminate)).
Defined.

(** X14. Nothing keeps two calls for the same missing image from both
    starting a download: after two calls in a row, the download of the
    cache file is pending twice. *)
Theorem get_image_url_twice_fetches_twice (st : St) (itemId imageType d : string) :
  truthy_dir (img_dir (self st)) = Some d ->
  fs (world st) !! cache_path d (itemId, imageType) = None ->
  let job := (emby_url (self st) itemId imageType, cache_filename itemId imageType) in
  threads (world (snd (get_image_url itemId imageType
                         (snd (get_image_url itemId imageType st))))) =
    (threads (world st) ++ [job; job])%list.
Proof.
  intros Hon Hmiss job.
  destruct (get_image_url_state st itemId imageType) as (Hself & Hfs & Hth).
  destruct (get_image_url_state (snd (get_image_url itemId imageType st)) itemId imageType)
    as (_ & _ & Hth2).
  rewrite Hself, Hfs, Hon, Hmiss in Hth2. rewrite Hon, Hmiss in Hth.
  rewrite Hth2, Hth, <- app_assoc. reflexivity.
Qed.

Lemma get_image_url_twice_fetches_twice_witness :
  List.length (threads (world (snd (get_image_url "42" "Primary"
                                     (snd (get_image_url "42" "Primary" demo_st)))))) = 2%nat.
Proof.
  rewrite (get_image_url_twice_fetches_twice demo_st "42" "Primary" "/config/www/emby_images"
             eq_refl eq_refl).
  reflexivity.
Defined.

(* ===================================================================== *)
(** ** More on a download *)
(* ===================================================================== *)

(** A stream of chunks written without a fault reaches the file whole. *)
Lemma written_chunks (chunks : list (list Z)) :
  forall k, written None k (List.map Chunk chunks) = List.concat chunks /\
            stream_fails None k (List.map Chunk chunks) = false.
Proof.
  induction chunks as [|chunk chunks IH]; intros k; [auto|].
  cbn [List.map written stream_fails List.concat].
  destruct (decide (None = Some k)) as [Hk|_]; [discriminate Hk|].
  destruct (IH (S k)) as [-> ->]. auto.
Qed.

(** A file of an existing directory, named without separator, has that
    directory as the place to be created in. *)
Lemma cache_dir_is_parent (f : gmap string node) (d name : string) :
  is_dir (f !! d) -> d <> "" -> name <> "" -> PyStr.contains "/" name = false ->
  parent_dir_exists f (OsPath.join d name) = true.
Proof.
  intros [m Hd] Hne Hname Hplain. unfold parent_dir_exists. apply existsb_exists.
  exists (d, Dir m). split.
  - apply list_elem_of_In, elem_of_map_to_list, Hd.
  - cbn [fst snd]. rewrite (join_entry_name d name Hne Hname Hplain). reflexivity.
Qed.

(** X15. When the server answers 200 and delivers the body without a
    fault, and the file can be opened (the system does not refuse, the
    path is in an existing directory and is not a directory) and written,
    [download_image_sync] returns [True] and the file of that name in the
    cache directory holds exactly the body (whatever it held before),
    dated now; no other file, the client and the pending downloads are as
    before. *)
Theorem download_image_sync_success (env : download_env) (url filename : string) (st : St)
    (d : string) (chunks : list (list Z)) :
  image_server env url = Response 200 (List.map Chunk chunks) ->
  open_error env = None ->
  write_error_at env = None ->
  img_dir (self st) = Some d ->
  parent_dir_exists (fs (world st)) (OsPath.join d filename) = true ->
  ~ is_dir (fs (world st) !! OsPath.join d filename) ->
  let r := download_image_sync env url filename st in
  fst r = Ok true /\
  fs (world (snd r)) =
    <[OsPath.join d filename := File (now (world st)) (List.concat chunks)]> (fs (world st)) /\
  self (snd r) = self st /\
  threads (world (snd r)) = threads (world st).
Proof.
  intros Hnet Hopen Hw Hd Hparent Hnd.
  destruct (download_image_sync_spec env url filename st)
    as (ok & f' & tr' & Hrun & _ & _ & _ & _ & _ & Hcontent).
  cbv zeta. rewrite Hrun. cbn [fst snd self world fs threads].
  destruct (Hcontent (OsPath.join d filename) (List.map Chunk chunks)) as [-> ->];
    [exists (List.map Chunk chunks), d; auto 10 | exact Hnet |].
  rewrite Hw. destruct (written_chunks chunks 0) as [-> ->]. auto.
Qed.

Lemma download_image_sync_success_witness :
  let r := download_image_sync env_ok "http://emby.lan:8096/Items/42/Images/Primary"
             "42_Primary_7ab37ce5.jpg" aged_st in
  fst r = Ok true /\
  fs (world (snd r)) !! "/config/www/emby_images/42_Primary_7ab37ce5.jpg"
    = Some (File (inject_Z (40 * day)) [255; 216; 255]).
Proof.
  destruct (download_image_sync_success env_ok "http://emby.lan:8096/Items/42/Images/Primary"
              "42_Primary_7ab37ce5.jpg" aged_st "/config/www/emby_images" [[255; 216; 255]]
              eq_refl eq_refl eq_refl eq_refl eq_refl
              ltac:(intros [m H]; vm_compute in H; discriminate H))
    as (H1 & H2 & _).
  split; [exact H1|]. rewrite H2. apply lookup_insert_eq.
Defined.

(** X16. [download_image_sync] returns [True] only with the file on
    disk: after a [True] there is a cache directory and a regular file of
    the given name in it. *)
Theorem download_image_sync_true_file (env : download_env) (url filename : string) (st : St) :
  fst (download_image_sync env url filename st) = Ok true ->
  exists d,
    img_dir (self st) = Some d /\
    is_file (fs (world (snd (download_image_sync env url filename st)))
             !! OsPath.join d filename).
Proof.
  destruct (download_image_sync_spec env url filename st)
    as (ok & f' & tr' & -> & _ & Hok & _ & _ & Hopened & _).
  cbn [fst snd world fs]. intros [= ->].
  destruct (Hok eq_refl) as [p Hp]. destruct (Hopened p Hp) as [Hfile _].
  destruct Hp as (stream & d & _ & Hd & -> & _). exists d. auto.
Qed.

Lemma download_image_sync_true_file_witness :
  exists d,
    img_dir (self demo_st) = Some d /\
    is_file (fs (world (snd (download_image_sync env_ok "u" "f.jpg" demo_st)))
             !! OsPath.join d "f.jpg").
Proof.
  exact (download_image_sync_true_file env_ok "u" "f.jpg" demo_st eq_refl).
Defined.

(** X17. On a client without cache directory ([img_dir] is [None]),
    [download_image_sync] still sends its request, then fails: it returns
    [False], raises nothing and writes no file. *)
Theorem download_image_sync_no_directory (env : download_env) (url filename : string)
    (st : St) :
  img_dir (self st) = None ->
  let r := download_image_sync env url filename st in
  fst r = Ok false /\
  fs (world (snd r)) = fs (world st) /\
  exists tr, trace (world (snd r)) = (trace (world st) ++ EvHttpGet url :: tr)%list.
Proof.
  intros Hd.
  destruct (download_image_sync_spec env url filename st)
    as (ok & f' & tr' & -> & _ & Hok & _ & Hsame & _ & _).
  cbn [fst snd world fs trace].
  assert (Hno : forall p, ~ opened env url filename st p).
  { intros p (stream & d & _ & H & _). congruence. }
  split; [|split; [|eexists; reflexivity]].
  - destruct ok; [|reflexivity]. destruct (Hok eq_refl) as [p Hp]. elim (Hno p Hp).
  - destruct Hsame as [H|[p Hp]]; [exact H | elim (Hno p Hp)].
Qed.

Lemma download_image_sync_no_directory_witness :
  fst (download_image_sync env_ok "u" "f.jpg" plain_st) = Ok false /\
  fs (world (snd (download_image_sync env_ok "u" "f.jpg" plain_st))) = fs (world plain_st).
Proof.
  destruct (download_image_sync_no_directory env_ok "u" "f.jpg" plain_st eq_refl)
    as (H1 & H2 & _).
  split; [exact H1 | exact H2].
Defined.

(** X18. After a download of the cache file of a pair that returned
    [True], [get_image_url] for that pair finds the file and starts no
    further download. *)
Theorem get_image_url_after_download (env : download_env) (url : string) (st : St)
    (itemId imageType d : string) :
  truthy_dir (img_dir (self st)) = Some d ->
  let r := download_image_sync env url (cache_filename itemId imageType) st in
  fst r = Ok true ->
  threads (world (snd (get_image_url itemId imageType (snd r)))) = threads (world (snd r)).
Proof.
  intros Hon r Htrue. subst r.
  destruct (truthy_dir_nonempty _ _ Hon) as [Hd _].
  destruct (download_image_sync_spec env url (cache_filename itemId imageType) st)
    as (ok & f' & tr' & Hrun & _ & Hok & _ & _ & Hopened & _).
  rewrite Hrun in *. cbn [fst snd] in *. injection Htrue as ->.
  destruct (Hok eq_refl) as [p Hp]. destruct (Hopened p Hp) as [(m & content & Hfile) _].
  destruct Hp as (stream & d' & _ & Hd' & -> & _).
  assert (d' = d) as -> by congruence.
  match goal with |- context [get_image_url _ _ ?s] =>
    destruct (get_image_url_state s itemId imageType) as (_ & _ & Hth)
  end.
  cbn [self world fs threads] in Hth. rewrite Hon in Hth.
  unfold cache_path in Hth. cbn [fst snd] in Hth. rewrite Hfile in Hth. exact Hth.
Qed.

Lemma get_image_url_after_download_witness :
  let r := download_image_sync env_ok "u" (cache_filename "42" "Primary") demo_st in
  threads (world (snd (get_image_url "42" "Primary" (snd r)))) = threads (world (snd r)).
Proof.
  exact (get_image_url_after_download env_ok "u" demo_st "42" "Primary"
           "/config/www/emby_images" eq_refl eq_refl).
Defined.

(* ===================================================================== *)
(** ** More on the sweep *)
(* ===================================================================== *)

(** A directory is not an entry of itself. *)
Lemma entry_name_self (d : string) : entry_name d d = None.
Proof.
  unfold entry_name. destruct (strip_prefix (dir_prefix d) d) as [n|] eqn:E; [|reflexivity].
  apply strip_prefix_inv in E. apply (f_equal String.length) in E.
  unfold dir_prefix in E. destruct (PyStr.endswith "/" d).
  - rewrite str_app_length in E. destruct n; [reflexivity | simpl in E; lia].
  - rewrite !str_app_length in E. simpl in E. lia.
Qed.

(** The sweep in every state: the files after it, path by path. *)
Lemma cleanup_old_images_cases (st : St) :
  exists f' tr',
    cleanup_old_images st =
      (Ok tt, {| self := self st;
                 world := {| fs := f'; now := now (world st); trace := tr';
                             threads := threads (world st) |} |}) /\
    ((f' = fs (world st) /\
      forall d, truthy_dir (img_dir (self st)) = Some d -> ~ is_dir (fs (world st) !! d)) \/
     exists d m,
       truthy_dir (img_dir (self st)) = Some d /\ fs (world st) !! d = Some (Dir m) /\
       forall p,
         f' !! p =
           match fs (world st) !! p with
           | Some x =>
               if expired d (cutoff_time (now (world st)) (img_cache_days (self st))) p x
               then None else Some x
           | None => None
           end).
Proof.
  destruct st as [c [f t tr th]]. cbn [self world fs now threads].
  unfold cleanup_old_images. run.
  destruct (truthy_dir (img_dir c)) as [d|] eqn:Hon; run.
  2:{ eexists _, _. split; [reflexivity | left; split; [reflexivity | intros d [=]]]. }
  destruct (truthy_dir_nonempty _ _ Hon) as [_ Hne].
  destruct (f !! d) as [[m content|m]|] eqn:Hd; cbn [negb]; run; rewrite ?Hd; run.
  1,3: eexists _, _; split; [reflexivity | left; split; [reflexivity|]];
       intros d' [= <-] [m' Hm']; congruence.
  match goal with |- context [for_each ?b ?l ?k ?s] =>
    destruct (for_each_cleanup_spec d (cutoff_time t (img_cache_days c)) l k s)
      as (cnt & tr' & ->)
  end.
  run. destruct (0 <? cnt); run; (eexists _, _; split; [reflexivity|]);
    right; exists d, m; (split; [reflexivity|]); (split; [exact Hd|]);
    intros p; rewrite fold_sweep_lookup;
    (destruct (f !! p) as [x|] eqn:E; [|reflexivity]);
    rewrite (listdir_sweep_expired d _ Hne _ _ _ E); reflexivity.
Qed.

(** X19. [cleanup_old_images] raises nothing and only deletes, in every
    state: the client, the clock and the pending downloads stay, and a
    path either holds what it held, or it held a regular file named
    [*.jpg] directly in the cache directory and is gone. Nothing is
    created or rewritten, and nothing outside the directory, in a
    subdirectory or of another name is deleted. *)
Theorem cleanup_old_images_only_deletes (st : St) :
  let r := cleanup_old_images st in
  fst r = Ok tt /\
  self (snd r) = self st /\
  now (world (snd r)) = now (world st) /\
  threads (world (snd r)) = threads (world st) /\
  forall p,
    fs (world (snd r)) !! p = fs (world st) !! p \/
    (fs (world (snd r)) !! p = None /\
     exists d name mtime content,
       img_dir (self st) = Some d /\ entry_name d p = Some name /\
       PyStr.endswith ".jpg" name = true /\
       fs (world st) !! p = Some (File mtime content)).
Proof.
  destruct (cleanup_old_images_cases st) as (f' & tr' & Hrun & Hfs).
  cbv zeta. rewrite Hrun. cbn [fst snd self world fs now threads].
  repeat split. intros p.
  destruct Hfs as [[-> _]|(d & m & Hon & _ & Hfs)]; [left; reflexivity|].
  rewrite Hfs. destruct (fs (world st) !! p) as [x|] eqn:E; [|left; reflexivity].
  destruct (expired d _ p x) eqn:Hexp; [|left; reflexivity].
  right. split; [reflexivity|]. unfold expired in Hexp.
  destruct (entry_name d p) as [name|] eqn:Hname; [|discriminate].
  apply andb_true_iff in Hexp as [Hjpg Hold].
  destruct x as [mtime content|mtime]; [|discriminate].
  exists d, name, mtime, content. destruct (truthy_dir_nonempty _ _ Hon) as [Hd _]. auto.
Qed.

(** X20. A second sweep right after a sweep deletes nothing more. *)
Theorem cleanup_old_images_idempotent (st : St) :
  fs (world (snd (cleanup_old_images (snd (cleanup_old_images st))))) =
  fs (world (snd (cleanup_old_images st))).
Proof.
  destruct (cleanup_old_images_cases st) as (f1 & tr1 & Hrun1 & Hfs1). rewrite Hrun1.
  cbn [snd].
  match goal with |- context [cleanup_old_images ?s] =>
    destruct (cleanup_old_images_cases s) as (f2 & tr2 & Hrun2 & Hfs2); rewrite Hrun2
  end.
  cbn [snd self world fs now threads] in *.
  destruct Hfs2 as [[-> _]|(d & m & Hon & Hd & Hfs2)]; [reflexivity|].
  apply map_eq. intros p. rewrite Hfs2.
  destruct Hfs1 as [[-> Hno]|(d1 & m1 & Hon1 & Hd1 & Hfs1)].
  - elim (Hno d Hon). exists m. exact Hd.
  - assert (d1 = d) as -> by congruence. rewrite Hfs1.
    destruct (fs (world st) !! p) as [x|]; [|reflexivity].
    destruct (expired d _ p x) eqn:E; [reflexivity | rewrite E; reflexivity].
Qed.

(** X21. Without a cache directory in the configuration the sweep does
    nothing at all; with one that does not exist on disk it checks for it
    and does nothing else. *)
Theorem cleanup_old_images_without_directory (st : St) :
  (truthy_dir (img_dir (self st)) = None -> cleanup_old_images st = (Ok tt, st)) /\
  (forall d, truthy_dir (img_dir (self st)) = Some d -> fs (world st) !! d = None ->
     cleanup_old_images st =
       (Ok tt, {| self := self st; world := with_event (EvExists d) (world st) |})).
Proof.
  unfold cleanup_old_images. run. split.
  - intros ->. reflexivity.
  - intros d -> Hd. run. rewrite Hd. reflexivity.
Qed.

Lemma cleanup_old_images_without_directory_witness :
  cleanup_old_images plain_st = (Ok tt, plain_st) /\
  trace (world (snd (cleanup_old_images empty_st))) = [EvExists "/config/www/emby_images"].
Proof.
  split.
  - exact (proj1 (cleanup_old_images_without_directory plain_st) eq_refl).
  - rewrite (proj2 (cleanup_old_images_without_directory empty_st)
               "/config/www/emby_images" eq_refl eq_refl).
    reflexivity.
Defined.

(** X22. Sweep and cache work together. For a pair without separator in
    its parts, a cache file older than the retention is deleted by the
    sweep, and the next [get_image_url] for the pair starts its download
    again; a cache file not older stays, and the next call starts
    nothing. *)
Theorem sweep_then_get_image_url (st : St) (d : string) (m : Q) (itemId imageType : string)
    (mtime : Q) (content : list Z) :
  truthy_dir (img_dir (self st)) = Some d ->
  fs (world st) !! d = Some (Dir m) ->
  PyStr.contains "/" itemId = false ->
  PyStr.contains "/" imageType = false ->
  fs (world st) !! cache_path d (itemId, imageType) = Some (File mtime content) ->
  let cutoff := (now (world st) - inject_Z (img_cache_days (self st)) * inject_Z 86400)%Q in
  let swept := snd (cleanup_old_images st) in
  let after := snd (get_image_url itemId imageType swept) in
  ((mtime < cutoff)%Q ->
   fs (world swept) !! cache_path d (itemId, imageType) = None /\
   threads (world after) =
     (threads (world swept)
      ++ [(emby_url (self st) itemId imageType, cache_filename itemId imageType)])%list) /\
  ((cutoff <= mtime)%Q ->
   fs (world swept) !! cache_path d (itemId, imageType) = Some (File mtime content) /\
   threads (world after) = threads (world swept)).
Proof.
  intros Hon Hd Hi Ht Hfile cutoff swept after.
  destruct (cleanup_old_images_spec st d m Hon Hd) as (_ & Hself & Hfs).
  fold swept in Hself, Hfs.
  destruct (truthy_dir_nonempty _ _ Hon) as [_ Hne].
  destruct (cache_filename_shape itemId imageType) as (Hjpg & Hname & Hplain).
  specialize (Hplain Hi Ht).
  destruct (get_image_url_state swept itemId imageType) as (_ & _ & Hth).
  fold after in Hth. rewrite Hself, Hon in Hth.
  assert (Hswept : fs (world swept) !! cache_path d (itemId, imageType) =
                   if Qltb mtime cutoff then None else Some (File mtime content)).
  { rewrite Hfs, Hfile. unfold expired, cache_path. cbn [fst snd].
    rewrite (join_entry_name _ _ Hne Hname Hplain), Hjpg. reflexivity. }
  rewrite Hswept in Hth. rewrite Hswept. split.
  - intros Hold. apply Qltb_lt in Hold. rewrite Hold in *. auto.
  - intros Hnew. apply Qltb_ge in Hnew. rewrite Hnew in *. auto.
Qed.

Lemma sweep_then_get_image_url_witness :
  let swept := snd (cleanup_old_images aged_st) in
  fs (world swept) !! cache_path "/config/www/emby_images" ("42", "Primary") = None /\
  List.length (threads (world (snd (get_image_url "42" "Primary" swept)))) = 1%nat.
Proof.
  destruct (sweep_then_get_image_url aged_st "/config/www/emby_images" 0 "42" "Primary"
              0 [255; 216] eq_refl eq_refl eq_refl eq_refl eq_refl) as [H _].
  destruct (H eq_refl) as [H1 H2].
  split; [exact H1|]. rewrite H2. reflexivity.
Defined.

(* ===================================================================== *)
(** ** Construction *)
(* ===================================================================== *)

(** X23. Without a cache directory, [EmbyClient(...)] only sets the
    attributes: no snapshot, no [_state], and the world is untouched. *)
Theorem construct_without_directory (host api_key : string) (use_ssl : bool) (port : string)
    (max_items : Z) (user_id : string) (episodes : bool) (directory : option string)
    (days : Z) (w : World) :
  truthy_dir directory = None ->
  let r := construct host api_key use_ssl port max_items user_id episodes directory
             days w in
  fst r = Ok tt /\
  world (snd r) = w /\
  data (self (snd r)) = ∅ /\
  _state (self (snd r)) = None.
Proof.
  intros Hoff. unfold construct, __init__, new_client. run. rewrite Hoff. auto.
Qed.

Lemma construct_without_directory_witness :
  let r := construct "emby.lan" "KEY" true "8920" 5 "u1" false (Some "") 30 swept_world in
  fst r = Ok tt /\ world (snd r) = swept_world.
Proof.
  destruct (construct_without_directory "emby.lan" "KEY" true "8920" 5 "u1" false (Some "")
              30 swept_world eq_refl) as (H1 & H2 & _).
  split; [exact H1 | exact H2].
Defined.

(** X24. When a regular file is in the place of the cache directory,
    [EmbyClient(...)] raises the error of [os.makedirs]: no client is
    made, and no file is touched. *)
Theorem construct_directory_is_file (host api_key : string) (use_ssl : bool) (port : string)
    (max_items : Z) (user_id : string) (episodes : bool) (directory : option string)
    (days : Z) (w : World) (d : string) (mtime : Q) (content : list Z) :
  truthy_dir directory = Some d ->
  fs w !! d = Some (File mtime content) ->
  let r := construct host api_key use_ssl port max_items user_id episodes directory
             days w in
  (exists msg, fst r = Raised (OSError msg)) /\
  fs (world (snd r)) = fs w.
Proof.
  intros Hon Hd. unfold construct, __init__, new_client. run. rewrite Hon. run.
  rewrite Hd. run. split; [eexists; reflexivity | reflexivity].
Qed.

Lemma construct_directory_is_file_witness :
  let r := construct "emby.lan" "KEY" false "8096" 5 "u1" true
             (Some "/config/www/emby_images") 30 blocked_world in
  (exists msg, fst r = Raised (OSError msg)) /\ fs (world (snd r)) = fs blocked_world.
Proof.
  exact (construct_directory_is_file "emby.lan" "KEY" false "8096" 5 "u1" true
           (Some "/config/www/emby_images") 30 blocked_world "/config/www/emby_images" 0 []
           eq_refl eq_refl).
Defined.

(** X25. When the cache directory is there already, [EmbyClient(...)]
    succeeds and sweeps it: afterwards the directory is still there, no
    expired file is left in it (a regular [*.jpg] entry older than the
    retention), every other file is there as it was, and nothing was
    created or rewritten. *)
Theorem construct_with_directory (host api_key : string) (use_ssl : bool) (port : string)
    (max_items : Z) (user_id : string) (episodes : bool) (directory : option string)
    (days : Z) (w : World) (d : string) :
  truthy_dir directory = Some d ->
  is_dir (fs w !! d) ->
  let r := construct host api_key use_ssl port max_items user_id episodes directory
             days w in
  let cutoff := cutoff_time (now w) days in
  fst r = Ok tt /\
  is_dir (fs (world (snd r)) !! d) /\
  (forall p x, fs (world (snd r)) !! p = Some x ->
               fs w !! p = Some x /\ expired d cutoff p x = false) /\
  (forall p x, fs w !! p = Some x -> expired d cutoff p x = false ->
               fs (world (snd r)) !! p = Some x).
Proof.
  intros Hon [m Hd]. unfold construct, __init__, new_client. run. rewrite Hon. run.
  rewrite Hd. run.
  match goal with |- context [cleanup_old_images ?s] => set (st1 := s) end.
  destruct (cleanup_old_images_spec st1 d m Hon Hd) as (Hok & _ & Hfs).
  cbn [st1 self world fs now img_cache_days] in Hfs.
  split; [exact Hok|]. split; [|split].
  - exists m. rewrite Hfs, Hd. unfold expired. rewrite entry_name_self. reflexivity.
  - intros p x. rewrite Hfs. destruct (fs w !! p) as [y|]; [|discriminate].
    destruct (expired d _ p y) eqn:E; [discriminate|]. intros [= <-]. auto.
  - intros p x Hp Hexp. rewrite Hfs, Hp, Hexp. reflexivity.
Qed.

Lemma construct_with_directory_witness :
  let r := construct "emby.lan" "KEY" false "8096" 2 "u1" true
             (Some "/config/www/emby_images") 30 aged_world in
  fst r = Ok tt /\
  fs (world (snd r)) !! "/config/www/emby_images/42_Primary_7ab37ce5.jpg" = None.
Proof.
  destruct (construct_with_directory "emby.lan" "KEY" false "8096" 2 "u1" true
              (Some "/config/www/emby_images") 30 aged_world "/config/www/emby_images"
              eq_refl ltac:(exists 0%Q; reflexivity))
    as (H1 & _ & H2 & _).
  split; [exact H1|].
  destruct (fs _ !! "/config/www/emby_images/42_Primary_7ab37ce5.jpg") as [x|] eqn:E;
    [|reflexivity].
  destruct (H2 _ _ E) as [Hx Hexp]. exfalso.
  vm_compute in Hx. injection Hx as <-. vm_compute in Hexp. discriminate Hexp.
Defined.

(* ===================================================================== *)
(** ** More on split and join *)
(* ===================================================================== *)

Section SplitJoin.

Import PyStr.

Variable sep : string.
Hypothesis sep_nonempty : sep <> "".

Lemma concat_cons_nonempty (x : string) (l : list string) :
  l <> [] -> String.concat sep (x :: l) = x ++ sep ++ String.concat sep l.
Proof. destruct l; [contradiction | reflexivity]. Qed.

Lemma split_from_nonempty (s cur : string) : split_from sep O cur s <> [].
Proof.
  destruct (split_from_last_some sep sep_nonempty s cur) as [post H].
  intros E. rewrite E in H. discriminate H.
Qed.

Lemma concat_split_from (n : nat) :
  forall s cur, (String.length s <= n)%nat ->
  String.concat sep (split_from sep O cur s) = cur ++ s.
Proof.
  induction n as [|n IH]; intros s cur Hlen.
  - destruct s; [|simpl in Hlen; lia]. cbn [split_from String.concat].
    now rewrite str_app_empty_r.
  - destruct s as [|c s].
    { cbn [split_from String.concat]. now rewrite str_app_empty_r. }
    simpl in Hlen. cbn [split_from]. destruct (startswith sep (String c s)) eqn:Hsw.
    + destruct (startswith_inv _ _ Hsw) as [r Hr].
      pose proof (split_from_nonempty r "") as Hpieces.
      destruct sep as [|a sep'] eqn:Esep; [contradiction|].
      rewrite <- Esep in *. rewrite Esep, str_app_cons in Hr. injection Hr as -> ->.
      replace (Nat.pred (String.length sep)) with (String.length sep')
        by (rewrite Esep; reflexivity).
      rewrite split_skip, (concat_cons_nonempty _ _ Hpieces).
      rewrite (IH r "" ltac:(rewrite str_app_length in Hlen; lia)).
      rewrite str_app_nil, Esep, !str_app_cons. reflexivity.
    + rewrite (IH s (cur ++ String c "") ltac:(lia)), str_app_assoc. reflexivity.
Qed.

End SplitJoin.

(** X26. Split and join are inverse: joining the pieces of
    [s.split(sep)] with [sep] gives [s] back, for every text and every
    non-empty separator; in particular the pieces of the cache directory
    around ["/www/"] lose nothing of it. *)
Theorem split_join_roundtrip (sep s : string) :
  sep <> "" -> String.concat sep (PyStr.split sep s) = s.
Proof.
  intros Hsep. unfold PyStr.split.
  rewrite (concat_split_from sep Hsep (String.length s) s "" (Nat.le_refl _)).
  reflexivity.
Qed.

Lemma split_join_roundtrip_witness :
  String.concat "/www/" (PyStr.split "/www/" "/srv/www/a/www/b") = "/srv/www/a/www/b".
Proof.
  exact (split_join_roundtrip "/www/" "/srv/www/a/www/b" ltac:(discriminate)).
Defined.

(** X27. [os.path.join] drops the directory when the name starts with a
    separator, and the name of a cache file starts with the [itemId]: for
    an [itemId] that starts with ["/"], [get_image_url] looks for the
    cache file at the absolute path that is the file name itself, not in
    the cache directory. *)
Theorem get_image_url_absolute_item (st : St) (d rest imageType : string) :
  truthy_dir (img_dir (self st)) = Some d ->
  let itemId := "/" ++ rest in
  cache_path d (itemId, imageType) = cache_filename itemId imageType /\
  exists tr,
    trace (world (snd (get_image_url itemId imageType st))) =
      (trace (world st) ++ EvExists (cache_filename itemId imageType) :: tr)%list.
Proof.
  intros Hon itemId.
  assert (Hpath : cache_path d (itemId, imageType) = cache_filename itemId imageType).
  { unfold cache_path, OsPath.join. cbn [fst snd].
    unfold cache_filename, itemId. rewrite !str_app_cons. reflexivity. }
  split; [exact Hpath|].
  unfold cache_path in Hpath. cbn [fst snd] in Hpath.
  unfold get_image_url. run. rewrite Hon. run. rewrite Hpath.
  destruct (_ !! cache_filename itemId imageType); cbn [negb]; run;
    destruct (PyStr.contains "/www/" d); run; eexists; trace_eq.
Qed.

Lemma get_image_url_absolute_item_witness :
  cache_path "/config/www/emby_images" ("/" ++ "etc/x", "Primary")
    = cache_filename ("/" ++ "etc/x") "Primary".
Proof.
  exact (proj1 (get_image_url_absolute_item demo_st "/config/www/emby_images" "etc/x" "Primary"
                  eq_refl)).
Defined.

(* ===================================================================== *)
(** ** The directory above *)
(* ===================================================================== *)

Example ancestors_of_cache_dir :
  ancestors "/config/www/emby_images" = ["/config"; "/config/www"].
Proof. reflexivity. Qed.

(** With a regular file above the cache directory, [os.makedirs] and so
    [EmbyClient(...)] raise, and nothing is made. *)
Example construct_under_file_raises :
  let r := construct "emby.lan" "KEY" false "8096" 2 "u1" true
             (Some "/config/www/emby_images") 30 under_file_world in
  fst r = Raised (OSError "Not a directory") /\
  fs (world (snd r)) = fs under_file_world.
Proof. vm_compute. auto. Qed.

(** Without the cache directory on disk, [open] fails and the download
    with it. *)
Example download_without_directory_on_disk :
  fst (download_image_sync env_ok "http://emby.lan:8096/Items/42/Images/Primary"
         "42_Primary_7ab37ce5.jpg" empty_st) = Ok false.
Proof. reflexivity. Qed.
